(** * vk_path_tracer: the acceleration-structure build and shader-binding-table
      dispatch pipeline of [checkpoints/e11_rt_pipeline_1/main.cpp], and the
      ray-generation shaders of [_edit/shaders].

    The host program is embedded as a computation in a small state monad
    that logs every device-facing call in a trace; the shaders' image
    update is embedded as a function on pixel values. *)

From Stdlib Require Import ZArith QArith Lia Floats.SpecFloat.
From Stdlib Require Import Lqa.
From stdpp Require Import base list numbers.

Local Open Scope Z_scope.

(** ** Machine integers *)

(** [uint32_t] and [uint64_t] (= [VkDeviceSize], [VkDeviceAddress],
    [size_t]) values are integers in range; arithmetic wraps around. *)
Definition u32 (z : Z) : Z := z mod 2 ^ 32.
Definition u64 (z : Z) : Z := z mod 2 ^ 64.
Definition is_u32 (z : Z) : Prop := 0 <= z < 2 ^ 32.
Definition is_u32b (z : Z) : bool := (0 <=? z) && (z <? 2 ^ 32).

(** ** Outcomes and the host monad *)

(** How a run (or a part of it) ends. *)
Inductive Outcome (A : Type) : Type :=
| Done (a : A)
| Abort        (* a failed [assert] or [NVVK_CHECK]: the process stops *)
| Undefined    (* undefined behaviour of the C++ program *)
| OutOfFuel.   (* the loop bound of the model was reached *)
Arguments Done {A} a.
Arguments Abort {A}.
Arguments Undefined {A}.
Arguments OutOfFuel {A}.

Global Instance Outcome_ret : MRet Outcome := @Done.
Global Instance Outcome_bind : MBind Outcome := λ A B k o,
  match o with
  | Done a => k a
  | Abort => Abort
  | Undefined => Undefined
  | OutOfFuel => OutOfFuel
  end.

(** State-passing computations that may stop early; the state reached when
    they stop is kept. *)
Definition M (St A : Type) : Type := St → St * Outcome A.

Global Instance M_ret {St} : MRet (M St) := λ A a st, (st, Done a).
Global Instance M_bind {St} : MBind (M St) := λ A B k m st,
  match m st with
  | (st', Done a) => k a st'
  | (st', Abort) => (st', Abort)
  | (st', Undefined) => (st', Undefined)
  | (st', OutOfFuel) => (st', OutOfFuel)
  end.

Definition liftOutcome {St A} (o : Outcome A) : M St A := λ st, (st, o).

(** [assert(b)] *)
Definition assert {St} (b : bool) : M St unit :=
  liftOutcome (if b then Done tt else Abort).

Class MonadFuel (T : Type → Type) := outOfFuel : ∀ A, T A.
Global Instance Outcome_fuel : MonadFuel Outcome := @OutOfFuel.
Global Instance M_fuel {St} : MonadFuel (M St) := λ A st, (st, OutOfFuel).

(** [for (i = i0; cond(i); i = step(i)) a = body(i, a);] where [a] stands
    for the variables the body updates. *)
Fixpoint forLoop {T} `{MRet T, MBind T, MonadFuel T} {A}
    (fuel : nat) (cond : Z → bool) (step : Z → Z) (body : Z → A → T A)
    (i : Z) (a : A) : T A :=
  match fuel with
  | O => outOfFuel A
  | S fuel' =>
      if cond i
      then a' ← body i a; forLoop fuel' cond step body (step i) a'
      else mret a
  end.

(** The same iteration over an explicit list of index values. *)
Fixpoint forEach {T} `{MRet T, MBind T} {A}
    (body : Z → A → T A) (indices : list Z) (a : A) : T A :=
  match indices with
  | [] => mret a
  | i :: rest => a' ← body i a; forEach body rest a'
  end.

(** ** The shader binding table *)

Module Sbt.

(** [VkPhysicalDeviceRayTracingPipelinePropertiesKHR], the four fields that
    main.cpp reads (all [uint32_t]). *)
Record RtPipelineProperties := {
  shaderGroupHandleSize : Z;
  shaderGroupBaseAlignment : Z;
  shaderGroupHandleAlignment : Z;
  maxShaderGroupStride : Z
}.

(** main.cpp:98-99, on [VkDeviceSize]:
    [sbtBaseAlignment * ((sbtHeaderSize + sbtBaseAlignment - 1) / sbtBaseAlignment)]. *)
Definition sbtStride (sbtHeaderSize sbtBaseAlignment : Z) : Z :=
  u64 (sbtBaseAlignment
       * (u64 (u64 (sbtHeaderSize + sbtBaseAlignment) - 1) / sbtBaseAlignment)).

(** main.cpp:81-100: the stride between its two assertions.  A zero divisor
    in [%] or [/] is undefined behaviour. *)
Definition sbtSetup (p : RtPipelineProperties) : Outcome Z :=
  let sbtHeaderSize := shaderGroupHandleSize p in
  let sbtBaseAlignment := shaderGroupBaseAlignment p in
  let sbtHandleAlignment := shaderGroupHandleAlignment p in
  if sbtHandleAlignment =? 0 then Undefined else
  if negb (sbtBaseAlignment mod sbtHandleAlignment =? 0) then Abort else
  if sbtBaseAlignment =? 0 then Undefined else
  let sbtStride := sbtStride sbtHeaderSize sbtBaseAlignment in
  if negb (sbtStride <=? maxShaderGroupStride p) then Abort else
  Done sbtStride.

(** [memcpy(&dst[doff], &src[soff], n)]: undefined when a range leaves its
    array. *)
Definition memcpy {A} (dst : list A) (doff : nat) (src : list A) (soff n : nat)
    : Outcome (list A) :=
  if decide (doff + n ≤ length dst ∧ soff + n ≤ length src)%nat
  then Done (list_inserts doff (take n (drop soff src)) dst)
  else Undefined.

(** main.cpp:462, the size of the table's buffer, a [uint32_t]. *)
Definition sbtSize (groupCount sbtStride : Z) : Z :=
  u32 (u64 (sbtStride * groupCount)).

(** main.cpp:469-472, the loop that copies the shader group handles into
    the mapped table, for [groupCount = groups.size()]. *)
Definition writeSBT (groupCount sbtStride sbtHeaderSize : Z)
    (cpuShaderHandleStorage mappedSBT : list Byte.byte) : Outcome (list Byte.byte) :=
  forLoop (S (Z.to_nat groupCount))
    (λ groupIndex, groupIndex <? groupCount)
    (λ groupIndex, u64 (groupIndex + 1))
    (λ groupIndex mappedSBT,
       memcpy mappedSBT (Z.to_nat (u64 (groupIndex * sbtStride)))
              cpuShaderHandleStorage (Z.to_nat (u64 (groupIndex * sbtHeaderSize)))
              (Z.to_nat sbtHeaderSize))
    0 mappedSBT.

(** What the device reads for group [i]: the [handleSize] bytes at offset
    [i * stride] (the spec's read-back; the bytes from [handleSize] up to
    [stride] are not looked at). *)
Definition readHandle (mappedSBT : list Byte.byte) (sbtStride sbtHeaderSize : Z)
    (i : Z) : list Byte.byte :=
  take (Z.to_nat sbtHeaderSize) (drop (Z.to_nat (i * sbtStride)) mappedSBT).

(** Handle [i] of the host-side block filled by
    [vkGetRayTracingShaderGroupHandlesKHR]. *)
Definition handleOf (cpuShaderHandleStorage : list Byte.byte) (sbtHeaderSize : Z)
    (i : Z) : list Byte.byte :=
  take (Z.to_nat sbtHeaderSize) (drop (Z.to_nat (i * sbtHeaderSize)) cpuShaderHandleStorage).

(** Byte position [p] of the table lies in no handle slot: it is one of
    the bytes between [handleSize] and [stride] of some record. *)
Definition isPadding (groupCount sbtStride sbtHeaderSize : Z) (p : nat) : Prop :=
  ∀ j, 0 <= j < groupCount →
       ¬ (j * sbtStride <= Z.of_nat p < j * sbtStride + sbtHeaderSize).

(** [VkStridedDeviceAddressRegionKHR] *)
Record StridedRegion := {
  deviceAddress : Z;
  stride : Z;
  size : Z
}.

Definition set_size (v : Z) (r : StridedRegion) : StridedRegion :=
  {| deviceAddress := deviceAddress r; stride := stride r; size := v |}.

Record Regions := {
  sbtRayGenRegion : StridedRegion;
  sbtMissRegion : StridedRegion;
  sbtHitRegion : StridedRegion;
  sbtCallableRegion : StridedRegion
}.

(** main.cpp:482-498 *)
Definition sbtRegions (sbtStartAddress sbtStride : Z) : Regions :=
  let sbtRayGenRegion :=
    {| deviceAddress := sbtStartAddress; stride := sbtStride; size := sbtStride |} in
  let sbtMissRegion := sbtRayGenRegion in
  let sbtMissRegion := set_size 0 sbtMissRegion in
  let sbtHitRegion := sbtRayGenRegion in
  let sbtHitRegion := set_size 0 sbtHitRegion in
  let sbtCallableRegion := sbtRayGenRegion in
  let sbtCallableRegion := set_size 0 sbtCallableRegion in
  {| sbtRayGenRegion := sbtRayGenRegion; sbtMissRegion := sbtMissRegion;
     sbtHitRegion := sbtHitRegion; sbtCallableRegion := sbtCallableRegion |}.

End Sbt.

(** ** The ray-generation shaders *)

Module RayGen.

(** The arithmetic of GLSL [float], as an interface: the shaders are read
    once over exact rationals and once over IEEE binary32. *)
Class FloatOps (F : Type) := {
  f_of_int : Z → F;
  f_add : F → F → F;
  f_sub : F → F → F;
  f_mul : F → F → F;
  f_div : F → F → F
}.

Global Instance Q_ops : FloatOps Q := {|
  f_of_int := inject_Z; f_add := Qplus; f_sub := Qminus;
  f_mul := Qmult; f_div := Qdiv
|}.

(** binary32: 24 bits of precision, [emax = 128]. *)
Definition b32_of_int (z : Z) : spec_float := binary_normalize 24 128 z 0 false.
Global Instance b32_ops : FloatOps spec_float := {|
  f_of_int := b32_of_int; f_add := SFadd 24 128; f_sub := SFsub 24 128;
  f_mul := SFmul 24 128; f_div := SFdiv 24 128
|}.

Section Shaders.
Context {F : Type} `{FloatOps F}.

Record vec3 := Vec3 { vx : F; vy : F; vz : F }.
Record vec4 := Vec4 { rgb : vec3; alpha_ : F }.

Definition vec3_splat (c : F) : vec3 := Vec3 c c c.
Definition vec3_add (u v : vec3) : vec3 :=
  Vec3 (f_add (vx u) (vx v)) (f_add (vy u) (vy v)) (f_add (vz u) (vz v)).
Definition vec3_divs (u : vec3) (c : F) : vec3 :=
  Vec3 (f_div (vx u) c) (f_div (vy u) c) (f_div (vz u) c).

(** GLSL [mix(x, y, a) = x * (1 - a) + y * a] *)
Definition mix (x y a : F) : F :=
  f_add (f_mul x (f_sub (f_of_int 1) a)) (f_mul y a).
Definition mix3 (u v : vec3) (a : F) : vec3 :=
  Vec3 (mix (vx u) (vx v) a) (mix (vy u) (vy v) a) (mix (vz u) (vz v) a).

(** raytrace.rgen.glsl:57-109.  [hitValues] are the values [prd.hitValue]
    holds after the bounce loop of each of the [NUM_SAMPLES] rays; the
    pixel the image held before is not read. *)
Definition NUM_SAMPLES : Z := 4.
Definition rgenStore (hitValues : list vec3) (currentColor : vec4) : vec4 :=
  let finalColor := vec3_splat (f_of_int 0) in
  let finalColor := foldl vec3_add finalColor hitValues in
  let finalColor := vec3_divs finalColor (f_of_int NUM_SAMPLES) in
  Vec4 finalColor (f_of_int 1).

(** The accumulating ray-generation shader (second document of
    fullscreen.vert.glsl), lines 91-105: [frame] is [pcRay.frame],
    [currentColor] the [imageLoad], [hitValue] is [prd.hitValue] after
    the bounce loop; the result is what [imageStore] writes. *)
Definition accumStore (frame : Z) (hitValue : vec3) (currentColor : vec4) : vec4 :=
  let finalColor := hitValue in
  if frame =? 0 then Vec4 finalColor (f_of_int 1)
  else
    let alpha := f_div (f_of_int 1) (f_of_int frame) in
    let accumulatedColor := mix3 (rgb currentColor) finalColor alpha in
    Vec4 accumulatedColor (f_of_int 1).

(** The image after the batches [first, first+1, ...] whose per-pixel raw
    results are [raws], for one pixel. *)
Fixpoint accumBatches (first : Z) (raws : list vec3) (pixel : vec4) : vec4 :=
  match raws with
  | [] => pixel
  | raw :: rest => accumBatches (first + 1) rest (accumStore first raw pixel)
  end.

Fixpoint rgenBatches (raws : list vec3) (pixel : vec4) : vec4 :=
  match raws with
  | [] => pixel
  | raw :: rest =>
      rgenBatches rest (rgenStore (replicate (Z.to_nat NUM_SAMPLES) raw) pixel)
  end.

(** The running average the spec asks for at frame [k > 0]:
    [mix(previous, new, 1/(k+1))]. *)
Definition specStore (k : Z) (hitValue : vec3) (currentColor : vec4) : vec4 :=
  if k =? 0 then Vec4 hitValue (f_of_int 1)
  else Vec4 (mix3 (rgb currentColor) hitValue
                  (f_div (f_of_int 1) (f_of_int (k + 1)))) (f_of_int 1).

(** The batches as the spec describes them, for comparison. *)
Fixpoint specBatches (first : Z) (raws : list vec3) (pixel : vec4) : vec4 :=
  match raws with
  | [] => pixel
  | raw :: rest => specBatches (first + 1) rest (specStore first raw pixel)
  end.
End Shaders.

Arguments vec3 F : clear implicits.
Arguments vec4 F : clear implicits.

End RayGen.

(** ** The host program *)

Module Host.
Import Sbt.

(** The device objects main.cpp creates and releases itself.  The
    ray tracing builder owns the acceleration structures (BLAS and TLAS),
    the descriptor container its layout, pool and pipeline layout. *)
Inductive Resource :=
| Context | Allocator | Image | ImageView | ImageLinear | CmdPool
| VertexBuffer | IndexBuffer | RaytracingBuilder | DescriptorSetContainer
| RayGenModule | RtPipeline | RtSBTBuffer.

Global Instance Resource_eq_dec : EqDecision Resource.
Proof. solve_decision. Defined.

(** Host-side [float] values are kept symbolic. [FDraw n] is the value of
    the [n]-th call [uniformDist(randomEngine)] of the run. *)
Inductive fexpr :=
| FLit (q : Q)
| FOfInt (z : Z)
| FDiv (a b : fexpr)
| FDraw (n : nat).

(** [glm::mat4] values, by the calls that build them. *)
Inductive mat4 :=
| Translate (x y z : fexpr)
| Rotate (angle x y z : fexpr)
| Scale (x y z : fexpr)
| MatMul (a b : mat4).

(** [VkAccelerationStructureInstanceKHR] *)
Record Instance := {
  transform : mat4;     (* through [nvvk::toTransformMatrixKHR] *)
  instanceCustomIndex : Z;
  mask : Z;
  instanceShaderBindingTableRecordOffset : Z;
  flags : Z;
  accelerationStructureReference : Z
}.

Definition VK_GEOMETRY_INSTANCE_TRIANGLE_FACING_CULL_DISABLE_BIT_KHR : Z := 1.

(** The grid position an instance was placed at (the outermost
    translation of its transform). *)
Definition gridPosition (inst : Instance) : option (Z * Z) :=
  match transform inst with
  | MatMul (Translate (FOfInt x) (FOfInt y) _) _ => Some (x, y)
  | _ => None
  end.

Inductive Layout := LayoutUndefined | LayoutGeneral | LayoutTransferSrc | LayoutTransferDst.

Inductive Barrier :=
| ImageBarrier (image : Resource) (oldLayout newLayout : Layout)
| MemoryBarrier.  (* transfer writes made readable by the host *)

(** What the run depends on and main.cpp does not decide. *)
Record Env := {
  rtPipelineProperties : RtPipelineProperties;
  readerValid : bool;             (* [reader.Valid()] after [ParseFromFile] *)
  objVertices : list spec_float;  (* [reader.GetAttrib().GetVertices()] *)
  objShapes : list (list Z);      (* per shape, [vertex_index] of [mesh.indices] *)
  blasDeviceAddress : Z → Z;      (* [raytracingBuilder.getBlasDeviceAddress] *)
  bufferDeviceAddress : Resource → Z;   (* [vkGetBufferDeviceAddress] *)
  shaderGroupHandles : nat → Byte.byte; (* bytes [vkGetRayTracingShaderGroupHandlesKHR] writes *)
  mappedMemory : nat → Byte.byte        (* bytes of the SBT buffer when mapped *)
}.

Definition render_width : Z := 800.
Definition render_height : Z := 600.
Definition NUM_SAMPLE_BATCHES : Z := 32.
(** [groups.size()], [std::array<VkRayTracingShaderGroupCreateInfoKHR, 1>] *)
Definition groups_size : Z := 1.

Section WithPushConstants.
(** common.h, which declares [struct PushConstants], is not part of the
    sources at hand: main.cpp names one field, [sample_batch]; the other
    fields are kept as a parameter, with the value zero-initialisation
    of the global gives them. *)
Context {Rest : Type} (restZero : Rest).

Record PushConstants := {
  sample_batch : Z;
  rest : Rest
}.

(** Commands recorded into a command buffer. *)
Inductive Cmd :=
| CmdPipelineBarrier (barriers : list Barrier)
| CmdBindPipeline
| CmdBindDescriptorSets
| CmdPushConstants (data : PushConstants)
| CmdTraceRays (regions : Regions) (width height depth : Z)
| CmdCopyImage (src dst : Resource).

(** Calls that reach the device or the file system, in program order. *)
Inductive Event :=
| Create (r : Resource)
| Destroy (r : Resource)
| ParseFromFile
| AllocateCommandBuffers
| QueueSubmitWaitIdle (cmdBuffer : list Cmd)
| FreeCommandBuffers
| ReleaseStaging
| BuildBlas (primitiveCount maxVertex : Z)
| GetBlasDeviceAddress (index : Z)
| BuildTlas (instances : list Instance)
| UpdateDescriptorSets
| GetShaderGroupHandles
| UnmapSBT (contents : list Byte.byte)
| Printf (sampleBatch : Z)
| WriteHdr.

Record HostState := {
  trace : list Event;
  pushConstants : PushConstants   (* the global of main.cpp:23 *)
}.

Definition initialState : HostState :=
  {| trace := []; pushConstants := {| sample_batch := 0; rest := restZero |} |}.

Definition emit (e : Event) : M HostState unit :=
  λ st, ({| trace := trace st ++ [e]; pushConstants := pushConstants st |}, Done tt).

(** [pushConstants.sample_batch = v] *)
Definition set_sample_batch (v : Z) : M HostState unit :=
  λ st, ({| trace := trace st;
            pushConstants := {| sample_batch := v; rest := rest (pushConstants st) |} |},
         Done tt).

Definition get_pushConstants : M HostState PushConstants :=
  λ st, (st, Done (pushConstants st)).

(** main.cpp:27-39 *)
Definition AllocateAndBeginOneTimeCommandBuffer : M HostState (list Cmd) :=
  emit AllocateCommandBuffers;; mret [].

(** main.cpp:41-48 *)
Definition EndSubmitWaitAndFreeCommandBuffer (cmdBuffer : list Cmd) : M HostState unit :=
  emit (QueueSubmitWaitIdle cmdBuffer);; emit FreeCommandBuffers.

(** main.cpp:310-325, the body of the grid loops; [acc] is
    [(instances, draws taken from randomEngine)]. *)
Definition gridBody (env : Env) (x y : Z) (acc : list Instance * nat)
    : M HostState (list Instance * nat) :=
  let '(instances, randomEngine) := acc in
  let transform := Translate (FLit 0) (FLit (-1)) (FLit 0) in
  let transform :=
    MatMul (Rotate (FDraw randomEngine) (FLit 1) (FLit 0) (FLit 0)) transform in
  let randomEngine := S randomEngine in
  let transform :=
    MatMul (Rotate (FDraw randomEngine) (FLit 0) (FLit 1) (FLit 0)) transform in
  let randomEngine := S randomEngine in
  let s := FDiv (FLit 1) (FLit 2.7) in
  let transform := MatMul (Scale s s s) transform in
  let transform := MatMul (Translate (FOfInt x) (FOfInt y) (FLit 0)) transform in
  emit (GetBlasDeviceAddress 0);;
  let instance :=
    {| transform := transform;
       instanceCustomIndex := 0;
       accelerationStructureReference := blasDeviceAddress env 0;
       instanceShaderBindingTableRecordOffset := 0;
       flags := VK_GEOMETRY_INSTANCE_TRIANGLE_FACING_CULL_DISABLE_BIT_KHR;
       mask := 255 |} in
  mret (instances ++ [instance], randomEngine).

(** main.cpp:302-327 *)
Definition buildInstances (env : Env) : M HostState (list Instance) :=
  acc ← forLoop 22 (λ x, x <=? 10) (λ x, x + 1)
          (λ x acc,
             forLoop 22 (λ y, y <=? 10) (λ y, y + 1) (gridBody env x) (-10) acc)
          (-10) ([], O);
  mret acc.1.

(** main.cpp:501-593, one pass of the sample batch loop. *)
Definition renderBatch (regions : Regions) (sampleBatch : Z) (_ : unit)
    : M HostState unit :=
  cmdBuffer ← AllocateAndBeginOneTimeCommandBuffer;
  let cmdBuffer := cmdBuffer ++ [CmdBindPipeline] in
  let cmdBuffer := cmdBuffer ++ [CmdBindDescriptorSets] in
  set_sample_batch sampleBatch;;
  data ← get_pushConstants;
  let cmdBuffer := cmdBuffer ++ [CmdPushConstants data] in
  let cmdBuffer :=
    cmdBuffer ++ [CmdTraceRays regions render_width render_height 1] in
  let cmdBuffer :=
    if sampleBatch =? u32 (NUM_SAMPLE_BATCHES - 1)
    then cmdBuffer
           ++ [CmdPipelineBarrier [ImageBarrier Image LayoutGeneral LayoutTransferSrc]]
           ++ [CmdCopyImage Image ImageLinear]
           ++ [CmdPipelineBarrier [MemoryBarrier]]
    else cmdBuffer in
  EndSubmitWaitAndFreeCommandBuffer cmdBuffer;;
  emit (Printf sampleBatch).

Definition renderLoop (regions : Regions) : M HostState unit :=
  forLoop (S (Z.to_nat NUM_SAMPLE_BATCHES))
    (λ sampleBatch, sampleBatch <? NUM_SAMPLE_BATCHES)
    (λ sampleBatch, u32 (sampleBatch + 1))
    (renderBatch regions) 0 tt.

(** main.cpp:600-612 *)
Definition teardown : M HostState unit :=
  emit (Destroy RtSBTBuffer);;
  emit (Destroy RtPipeline);;
  emit (Destroy RayGenModule);;
  emit (Destroy DescriptorSetContainer);;
  emit (Destroy RaytracingBuilder);;
  emit (Destroy VertexBuffer);;
  emit (Destroy IndexBuffer);;
  emit (Destroy CmdPool);;
  emit (Destroy ImageLinear);;
  emit (Destroy ImageView);;
  emit (Destroy Image);;
  emit (Destroy Allocator);;
  emit (Destroy Context).

(** main.cpp:56-613.  Device calls wrapped in [NVVK_CHECK] are followed
    on their success path. *)
Definition main (env : Env) : M HostState unit :=
  emit (Create Context);;
  let sbtHeaderSize := shaderGroupHandleSize (rtPipelineProperties env) in
  sbtStride ← liftOutcome (sbtSetup (rtPipelineProperties env));
  emit (Create Allocator);;
  emit (Create Image);;
  emit (Create ImageView);;
  emit (Create ImageLinear);;
  (* Load the mesh of the first shape from an OBJ file *)
  emit ParseFromFile;;
  assert (readerValid env);;
  let objVertices := objVertices env in
  let objShapes := objShapes env in
  assert (bool_decide (length objShapes = 1%nat));;
  let objShape := default [] (objShapes !! O) in
  let objIndices := u32 <$> objShape in
  emit (Create CmdPool);;
  (* Upload the vertex and index buffers to the GPU. *)
  uploadCmdBuffer ← AllocateAndBeginOneTimeCommandBuffer;
  emit (Create VertexBuffer);;
  emit (Create IndexBuffer);;
  let uploadCmdBuffer :=
    uploadCmdBuffer
      ++ [CmdPipelineBarrier [ImageBarrier Image LayoutUndefined LayoutGeneral;
                              ImageBarrier ImageLinear LayoutUndefined LayoutTransferDst]] in
  EndSubmitWaitAndFreeCommandBuffer uploadCmdBuffer;;
  emit ReleaseStaging;;
  (* Create the BLAS *)
  emit (Create RaytracingBuilder);;
  emit (BuildBlas (u32 (Z.of_nat (length objIndices) / 3))
                  (u32 (u64 (Z.of_nat (length objVertices) / 3 - 1))));;
  (* Create 441 instances pointing to BLAS 0, and build them into a TLAS *)
  instances ← buildInstances env;
  emit (BuildTlas instances);;
  emit (Create DescriptorSetContainer);;
  emit UpdateDescriptorSets;;
  emit (Create RayGenModule);;
  emit (Create RtPipeline);;
  (* Get the shader group handles *)
  let cpuShaderHandleStorage :=
    shaderGroupHandles env <$> seq 0 (Z.to_nat (u64 (sbtHeaderSize * groups_size))) in
  emit GetShaderGroupHandles;;
  let sbtSize := sbtSize groups_size sbtStride in
  emit (Create RtSBTBuffer);;
  let mappedSBT := mappedMemory env <$> seq 0 (Z.to_nat sbtSize) in
  mappedSBT ← liftOutcome
    (writeSBT groups_size sbtStride sbtHeaderSize cpuShaderHandleStorage mappedSBT);
  emit (UnmapSBT mappedSBT);;
  emit ReleaseStaging;;
  let sbtStartAddress := bufferDeviceAddress env RtSBTBuffer in
  let regions := sbtRegions sbtStartAddress sbtStride in
  renderLoop regions;;
  (* Get the image data back from the GPU *)
  emit WriteHdr;;
  teardown.

(** *** Reading a trace *)

Definition created (t : list Event) : list Resource :=
  omap (λ e, match e with Create r => Some r | _ => None end) t.

Definition destroyed (t : list Event) : list Resource :=
  omap (λ e, match e with Destroy r => Some r | _ => None end) t.

(** The command buffers submitted to the queue, in order. *)
Definition submits (t : list Event) : list (list Cmd) :=
  omap (λ e, match e with QueueSubmitWaitIdle c => Some c | _ => None end) t.

(** A trace-rays dispatch, with the push-constant block in effect when it
    was recorded (none before the first [vkCmdPushConstants] of its
    command buffer). *)
Record Dispatch := {
  d_pushConstants : option PushConstants;
  d_regions : Regions;
  d_extent : Z * Z * Z
}.

Fixpoint dispatchesOf (current : option PushConstants) (cmds : list Cmd)
    : list Dispatch :=
  match cmds with
  | [] => []
  | CmdPushConstants data :: cmds => dispatchesOf (Some data) cmds
  | CmdTraceRays regions w h d :: cmds =>
      {| d_pushConstants := current; d_regions := regions; d_extent := (w, h, d) |}
      :: dispatchesOf current cmds
  | _ :: cmds => dispatchesOf current cmds
  end.

Definition dispatches (t : list Event) : list Dispatch :=
  concat (dispatchesOf None <$> submits t).

(** Every block handed to [vkCmdPushConstants], in order. *)
Definition pushes (t : list Event) : list PushConstants :=
  concat ((λ cmds : list Cmd,
             omap (λ c, match c with CmdPushConstants d => Some d | _ => None end) cmds)
            <$> submits t).

(** The calls on the ray tracing builder that concern acceleration
    structures, in order. *)
Definition isBuilderCall (e : Event) : bool :=
  match e with
  | BuildBlas _ _ | GetBlasDeviceAddress _ | BuildTlas _ => true
  | _ => false
  end.
Definition builderCalls (t : list Event) : list Event := filter isBuilderCall t.

Definition tlasBuilds (t : list Event) : list (list Instance) :=
  omap (λ e, match e with BuildTlas l => Some l | _ => None end) t.

End WithPushConstants.

(** *** Which environments let the run pass its assertions *)

Definition propsOk (p : RtPipelineProperties) : bool :=
  is_u32b (shaderGroupHandleSize p) && is_u32b (shaderGroupBaseAlignment p)
  && is_u32b (shaderGroupHandleAlignment p) && is_u32b (maxShaderGroupStride p)
  && (0 <? shaderGroupHandleSize p) && (0 <? shaderGroupBaseAlignment p)
  && (0 <? shaderGroupHandleAlignment p)
  && (shaderGroupBaseAlignment p mod shaderGroupHandleAlignment p =? 0)
  && (sbtStride (shaderGroupHandleSize p) (shaderGroupBaseAlignment p)
      <=? maxShaderGroupStride p).

(** The mesh file was found and parsed, and holds exactly one shape. *)
Definition meshOk (env : Env) : bool :=
  readerValid env && bool_decide (length (objShapes env) = 1%nat).

Definition envOk (env : Env) : bool :=
  propsOk (rtPipelineProperties env) && meshOk env.

(** The stride main.cpp computes in [env]. *)
Definition strideOf (env : Env) : Z :=
  sbtStride (shaderGroupHandleSize (rtPipelineProperties env))
            (shaderGroupBaseAlignment (rtPipelineProperties env)).

(** Exchanges the names of the two geometry buffers. *)
Definition swapGeometryBuffers (r : Resource) : Resource :=
  match r with
  | VertexBuffer => IndexBuffer
  | IndexBuffer => VertexBuffer
  | r => r
  end.

(** *** Two environments to run the model on *)

(** A device with 32-byte handles and 64-byte base alignment, and a mesh of
    one triangle. *)
Definition goodEnv : Env := {|
  rtPipelineProperties :=
    {| shaderGroupHandleSize := 32; shaderGroupBaseAlignment := 64;
       shaderGroupHandleAlignment := 32; maxShaderGroupStride := 4096 |};
  readerValid := true;
  objVertices := replicate 9 (S754_zero false);
  objShapes := [[0; 1; 2]];
  blasDeviceAddress := λ i, 4096 + 256 * i;
  bufferDeviceAddress := λ _, 65536;
  shaderGroupHandles := λ _, Byte.x2a;
  mappedMemory := λ _, Byte.x00
|}.


End Host.

(** ** More readings of a host trace *)

Module HostTrace.
Import Sbt Host.

Global Instance Layout_eq_dec : EqDecision Layout.
Proof. solve_decision. Defined.

(** The device properties are [uint32_t] values, and the sizes among them
    are positive. *)
Definition propsInRange (p : RtPipelineProperties) : bool :=
  is_u32b (shaderGroupHandleSize p) && is_u32b (shaderGroupBaseAlignment p)
  && is_u32b (shaderGroupHandleAlignment p) && is_u32b (maxShaderGroupStride p)
  && (0 <? shaderGroupHandleSize p) && (0 <? shaderGroupBaseAlignment p)
  && (0 <? shaderGroupHandleAlignment p).

(** The layouts of the two images of main.cpp. *)
Record Layouts := {
  imageLayout : Layout;
  imageLinearLayout : Layout
}.

(** Both images are created with [initialLayout = VK_IMAGE_LAYOUT_UNDEFINED]
    (main.cpp:138, 174-176). *)
Definition initialLayouts : Layouts :=
  {| imageLayout := LayoutUndefined; imageLinearLayout := LayoutUndefined |}.

Definition layoutOf (l : Layouts) (r : Resource) : option Layout :=
  match r with
  | Image => Some (imageLayout l)
  | ImageLinear => Some (imageLinearLayout l)
  | _ => None
  end.

Definition setLayout (l : Layouts) (r : Resource) (new : Layout) : Layouts :=
  match r with
  | Image => {| imageLayout := new; imageLinearLayout := imageLinearLayout l |}
  | ImageLinear => {| imageLayout := imageLayout l; imageLinearLayout := new |}
  | _ => l
  end.

Definition applyBarrier (l : option Layouts) (b : Barrier) : option Layouts :=
  match l, b with
  | Some l, ImageBarrier r old new =>
      if bool_decide (layoutOf l r = Some old) then Some (setLayout l r new) else None
  | Some l, MemoryBarrier => Some l
  | None, _ => None
  end.

Section WithPushConstants.
Context {Rest : Type}.
Implicit Types (e : @Event Rest) (c : @Cmd Rest) (cmds : list (@Cmd Rest)).
Implicit Types (t : list (@Event Rest)).

(** The calls that allocate, submit and free a command buffer. *)
Definition isCmdBufferEvent e : bool :=
  match e with
  | AllocateCommandBuffers | QueueSubmitWaitIdle _ | FreeCommandBuffers => true
  | _ => false
  end.

(** The life of one command buffer, as
    [AllocateAndBeginOneTimeCommandBuffer] and
    [EndSubmitWaitAndFreeCommandBuffer] give it. *)
Definition cmdBufferCycle cmds : list (@Event Rest) :=
  [AllocateCommandBuffers; QueueSubmitWaitIdle cmds; FreeCommandBuffers].

(** The commands that read or write the pixels of [image]. *)
Definition isImageAccess c : bool :=
  match c with
  | CmdTraceRays _ _ _ _ | CmdCopyImage _ _ => true
  | _ => false
  end.

(** Runs the commands in submission order and follows the layout of the
    two images: every image barrier must name the layout the image is
    in as its old layout; a trace-rays dispatch needs [image] in the
    GENERAL layout its descriptor declares (main.cpp:356-357); the copy
    needs its source in TRANSFER_SRC_OPTIMAL and its destination in
    TRANSFER_DST_OPTIMAL, as its call declares (main.cpp:567-572).  [None]
    when a command finds an image in another layout. *)
Fixpoint trackLayouts (l : Layouts) cmds : option Layouts :=
  match cmds with
  | [] => Some l
  | CmdPipelineBarrier barriers :: cmds =>
      match foldl applyBarrier (Some l) barriers with
      | Some l' => trackLayouts l' cmds
      | None => None
      end
  | CmdTraceRays _ _ _ _ :: cmds =>
      if bool_decide (imageLayout l = LayoutGeneral) then trackLayouts l cmds else None
  | CmdCopyImage src dst :: cmds =>
      if bool_decide (layoutOf l src = Some LayoutTransferSrc
                      ∧ layoutOf l dst = Some LayoutTransferDst)
      then trackLayouts l cmds else None
  | _ :: cmds => trackLayouts l cmds
  end.

(** The contents of the table each time it is unmapped. *)
Definition unmapped t : list (list Byte.byte) :=
  omap (λ e, match e with UnmapSBT c => Some c | _ => None end) t.

Definition isWriteHdr e : bool :=
  match e with WriteHdr => true | _ => false end.

End WithPushConstants.

(** A device whose base alignment is no multiple of its handle alignment. *)
Definition badAlignEnv : Env := {|
  rtPipelineProperties :=
    {| shaderGroupHandleSize := 32; shaderGroupBaseAlignment := 64;
       shaderGroupHandleAlignment := 48; maxShaderGroupStride := 4096 |};
  readerValid := true;
  objVertices := objVertices goodEnv;
  objShapes := objShapes goodEnv;
  blasDeviceAddress := blasDeviceAddress goodEnv;
  bufferDeviceAddress := bufferDeviceAddress goodEnv;
  shaderGroupHandles := shaderGroupHandles goodEnv;
  mappedMemory := mappedMemory goodEnv
|}.

(** A mesh file with one shape and no vertex at all. *)
Definition noVertexEnv : Env := {|
  rtPipelineProperties := rtPipelineProperties goodEnv;
  readerValid := true;
  objVertices := [];
  objShapes := [[]];
  blasDeviceAddress := blasDeviceAddress goodEnv;
  bufferDeviceAddress := bufferDeviceAddress goodEnv;
  shaderGroupHandles := shaderGroupHandles goodEnv;
  mappedMemory := mappedMemory goodEnv
|}.

End HostTrace.

(** ** Colour channels *)

Module Channels.
Import RayGen.

Inductive Channel := Red | Green | Blue.

Definition chan {F} (c : Channel) (v : vec3 F) : F :=
  match c with
  | Red => vx v
  | Green => vy v
  | Blue => vz v
  end.

(** The sum of one channel over a list of per-batch results. *)
Definition channelSum (c : Channel) (raws : list (vec3 Q)) : Q :=
  foldr (λ raw acc, chan c raw + acc)%Q 0%Q raws.

End Channels.

(** ** The full-screen pass *)

Module Fullscreen.
Import RayGen.

Section Shaders.
Context {F : Type} `{FloatOps F}.



(** The colour the gradient fragment shader writes for the interpolated
    [inUV = (u, v)]: [vec4(inUV.x, inUV.y, 1.0 - inUV.x * inUV.y, 1.0)]. *)
Definition gradientMain (u v : F) : vec4 F :=
  Vec4 (Vec3 u v (f_sub (f_of_int 1) (f_mul u v))) (f_of_int 1).

End Shaders.

End Fullscreen.

(** ** Paths: the bounce loop and the shaders it invokes *)

Module PathTrace.
Import RayGen.

(** The comparison [a < b] of GLSL [float]. *)
Class CompareOps (F : Type) := f_ltb : F → F → bool.

Global Instance Q_compare : CompareOps Q := λ a b, negb (Qle_bool b a).

Section Shaders.
Context {F : Type} `{FloatOps F, CompareOps F}.

(** GLSL [max(x, y)] is [y] if [x < y], otherwise [x]. *)
Definition f_max (x y : F) : F := if f_ltb x y then y else x.

Definition vec3_mul (u v : vec3 F) : vec3 F :=
  Vec3 (f_mul (vx u) (vx v)) (f_mul (vy u) (vy v)) (f_mul (vz u) (vz v)).
Definition vec3_scale (u : vec3 F) (c : F) : vec3 F :=
  Vec3 (f_mul (vx u) c) (f_mul (vy u) c) (f_mul (vz u) c).

(** raycommon.h: [struct hitPayload]. *)
Record hitPayload := {
  hitValue : vec3 F;
  rayOrigin : vec3 F;
  rayDir : vec3 F;
  throughput : vec3 F;
  depth : Z;
  done : bool
}.

(** The miss shader: the sky colour is [pcRay.clearColor.xyz * 0.8] (the
    literal is written [8 / 10]). *)
Definition missMain (clearColor : vec3 F) (prd : hitPayload) : hitPayload :=
  let skyColor := vec3_scale clearColor (f_div (f_of_int 8) (f_of_int 10)) in
  {| hitValue := vec3_add (hitValue prd) (vec3_mul (throughput prd) skyColor);
     rayOrigin := rayOrigin prd;
     rayDir := rayDir prd;
     throughput := throughput prd;
     depth := depth prd;
     done := true |}.

(** What raytrace.rchit.glsl:60-128 computes from the hit triangle, its
    material, the light and the random numbers, and what the shadow ray
    of line 119 finds. *)
Record HitData := {
  albedo : vec3 F;       (* lines 90-95 *)
  roulette : F;          (* the value of [random(...)] at line 100 *)
  lightIntensity : F;    (* line 110 *)
  isShadowed : bool;     (* payload 1 after the [traceRayEXT] of line 119 *)
  specular : vec3 F;     (* [computeSpecular(mat, viewDir, L, worldNrm)] *)
  worldPos : vec3 F;     (* line 79 *)
  nextDir : vec3 F       (* line 128 *)
}.

(** raytrace.rchit.glsl:97-134: the payload as the shader leaves it and
    the number of [traceRayEXT] calls the shader made.  A hit that the
    roulette ends returns at once; every other hit traces the shadow ray
    of line 119.  The literal [0.3] is written [3 / 10]. *)
Definition closestHitMain (h : HitData) (prd : hitPayload) : hitPayload * nat :=
  let p := f_max (vx (albedo h)) (f_max (vy (albedo h)) (vz (albedo h))) in
  let terminated := (3 <? depth prd) && f_ltb p (roulette h) in
  if terminated
  then ({| hitValue := hitValue prd; rayOrigin := rayOrigin prd; rayDir := rayDir prd;
           throughput := throughput prd; depth := depth prd; done := true |}, O)
  else
    let throughput1 :=
      if 3 <? depth prd then vec3_divs (throughput prd) p else throughput prd in
    let shadowCoeff :=
      if isShadowed h then f_div (f_of_int 3) (f_of_int 10) else f_of_int 1 in
    ({| hitValue :=
          vec3_add (hitValue prd)
            (vec3_scale (vec3_scale (specular h) shadowCoeff) (lightIntensity h));
        rayOrigin := worldPos h;
        rayDir := nextDir h;
        throughput := vec3_mul throughput1 (albedo h);
        depth := depth prd + 1;
        done := done prd |}, 1%nat).

(** What [traceRayEXT] finds for the ray held in the payload: the data of
    the closest hit, or nothing. *)
Definition Scene := hitPayload → option HitData.

(** The [traceRayEXT] of the bounce loop, with opaque geometry: the
    closest-hit shader runs on a hit, the miss shader otherwise.  The
    number returned counts this call and the calls the shader made. *)
Definition traceRay (scene : Scene) (clearColor : vec3 F) (prd : hitPayload)
    : hitPayload * nat :=
  match scene prd with
  | Some h => let '(prd', shadowRays) := closestHitMain h prd in (prd', S shadowRays)
  | None => (missMain clearColor prd, 1%nat)
  end.

(** The bounce loop of both ray-generation shaders
    (raytrace.rgen.glsl:79-99): the payload when the loop is left and the
    number of [traceRayEXT] calls made, by the loop and by the
    closest-hit shader. *)
Fixpoint bounceLoop (fuel : nat) (scene : Scene) (clearColor : vec3 F)
    (prd : hitPayload) (traces : nat) : Outcome (hitPayload * nat) :=
  match fuel with
  | O => OutOfFuel
  | S fuel' =>
      if negb (done prd) && (depth prd <? 8)
      then
        let '(prd, n) := traceRay scene clearColor prd in
        if done prd then Done (prd, (traces + n)%nat)
        else bounceLoop fuel' scene clearColor prd (traces + n)%nat
      else Done (prd, traces)
  end.

(** raytrace.rgen.glsl:71-76 *)
Definition initialPayload (origin direction : vec3 F) : hitPayload :=
  {| hitValue := vec3_splat (f_of_int 0);
     rayOrigin := origin;
     rayDir := direction;
     throughput := vec3_splat (f_of_int 1);
     depth := 0;
     done := false |}.

(** One path from a camera ray. *)
Definition tracePath (scene : Scene) (clearColor origin direction : vec3 F)
    : Outcome (hitPayload * nat) :=
  bounceLoop 9 scene clearColor (initialPayload origin direction) O.

(** raytrace.rgen.glsl:57-109 for one pixel: [camera i] is the ray of
    sample [i] (lines 62-68); the result is the colour stored and the
    number of [traceRayEXT] calls. *)
Definition rgenPixel (scene : Scene) (clearColor : vec3 F)
    (camera : Z → vec3 F * vec3 F) (currentColor : vec4 F) : Outcome (vec4 F * nat) :=
  acc ← forLoop (S (Z.to_nat NUM_SAMPLES)) (λ i, i <? NUM_SAMPLES) (λ i, i + 1)
          (λ i acc,
             path ← tracePath scene clearColor (camera i).1 (camera i).2;
             mret (acc.1 ++ [hitValue path.1], (acc.2 + path.2)%nat))
          0 ([], O);
  mret (rgenStore acc.1 currentColor, acc.2).

(** The accumulating ray-generation shader for one pixel: one path, then
    the blend into the image. *)
Definition accumPixel (scene : Scene) (clearColor origin direction : vec3 F)
    (frame : Z) (currentColor : vec4 F) : Outcome (vec4 F * nat) :=
  path ← tracePath scene clearColor origin direction;
  mret (accumStore frame (hitValue path.1) currentColor, path.2).

End Shaders.

Arguments hitPayload F : clear implicits.
Arguments HitData F : clear implicits.
Arguments Scene F : clear implicits.

(** A closed box of grey walls (albedo 1/2) with the light switched off
    and hidden, and the random number of the roulette always 1: every
    ray hits. *)
Definition greyBox : Scene Q := λ prd,
  Some {| albedo := vec3_splat (1 # 2)%Q;
          roulette := 1%Q;
          lightIntensity := 0%Q;
          isShadowed := true;
          specular := vec3_splat 0%Q;
          worldPos := rayOrigin prd;
          nextDir := rayDir prd |}.

(** A closed box of white walls, the roulette never ending a path. *)
Definition whiteBox : Scene Q := λ prd,
  Some {| albedo := vec3_splat 1%Q;
          roulette := 0%Q;
          lightIntensity := 1%Q;
          isShadowed := false;
          specular := vec3_splat (1 # 10)%Q;
          worldPos := rayOrigin prd;
          nextDir := rayDir prd |}.

End PathTrace.

(** ** The window application *)

Module Window.

(** The device objects [PathTracerWindow] handles.  Framebuffers, shader
    modules and command buffers are told apart by their handles. *)
Inductive Object :=
| Context | Swapchain | DescriptorPool | CmdPool | RenderPass
| Framebuffer (handle : Z) | ShaderModule (handle : Z) | CommandBuffer (handle : Z)
| PipelineLayout | Pipeline.

Global Instance Object_eq_dec : EqDecision Object.
Proof. solve_decision. Defined.

Inductive Event :=
| Create (o : Object)          (* a creating call that succeeded *)
| CreateFailed                 (* a creating call that returned an error *)
| Destroy (o : Object)
| UpdateSwapchain (width height : Z)
| DeviceWaitIdle
| DrawFrame (cmd framebuffer vertexCount : Z)
| Present (cmd : Z).

Record State := {
  m_framebuffers : list Z;   (* [std::vector<VkFramebuffer>], by handle *)
  imageCount : Z;            (* [m_swapchain.getImageCount()] *)
  calls : Z;                 (* creating calls made so far *)
  log : list Event
}.

(** No framebuffer yet, no call made. *)
Definition initialState : State :=
  {| m_framebuffers := []; imageCount := 0; calls := 0; log := [] |}.

Definition VK_NULL_HANDLE : Z := 0.

Definition emit (e : Event) : M State unit := λ st,
  ({| m_framebuffers := m_framebuffers st; imageCount := imageCount st;
      calls := calls st; log := log st ++ [e] |}, Done tt).

Definition set_framebuffers (fbs : list Z) : M State unit := λ st,
  ({| m_framebuffers := fbs; imageCount := imageCount st;
      calls := calls st; log := log st |}, Done tt).

Definition get_framebuffers : M State (list Z) := λ st, (st, Done (m_framebuffers st)).

Definition getImageCount : M State Z := λ st, (st, Done (imageCount st)).

(** [m_swapchain.update(width, height)]; [count] is the number of images
    the swap chain has afterwards. *)
Definition updateSwapchain (width height count : Z) : M State unit := λ st,
  ({| m_framebuffers := m_framebuffers st; imageCount := count;
      calls := calls st; log := log st ++ [UpdateSwapchain width height] |},
   Done tt).

(** [std::vector::resize(n)]: the first [n] elements are kept, null
    handles are appended up to length [n]. *)
Definition resizeVec (n : nat) (v : list Z) : list Z :=
  take n v ++ replicate (n - length v) VK_NULL_HANDLE.

(** [m_framebuffers[i]]: an index outside the vector is undefined
    behaviour. *)
Definition indexFramebuffers (i : Z) : M State nat := λ st,
  if bool_decide (0 <= i < Z.of_nat (length (m_framebuffers st)))
  then (st, Done (Z.to_nat i))
  else (st, Undefined).

(** What the log gets for the answer [r] of a creating call. *)
Definition outcomeEvent (kind : Z → Object) (r : option Z) : Event :=
  match r with
  | Some h => Create (kind h)
  | None => CreateFailed
  end.

Section WithDevice.
(** What the device answers to the creating calls, by the number of the
    call: the new handle, or nothing when the call fails.  The class
    looks at none of the results (part_002:67, 70, 74, 79, 107, 134,
    175, 191-192, 196, 246). *)
Context (device : Z → option Z).

(** A creating call: the answer of the device. *)
Definition vkCreate : M State (option Z) := λ st,
  ({| m_framebuffers := m_framebuffers st; imageCount := imageCount st;
      calls := calls st + 1; log := log st |}, Done (device (calls st))).

(** The creation of one of the objects held in a member variable. *)
Definition create (o : Object) : M State unit :=
  r ← vkCreate;
  emit (outcomeEvent (λ _, o) r).

(** A call that returns the new handle, and the null handle when it
    fails: [nvvk::createShaderModule], [m_swapchain.createCommandBuffer]. *)
Definition createHandle (kind : Z → Object) : M State Z :=
  r ← vkCreate;
  emit (outcomeEvent kind r);;
  mret (default VK_NULL_HANDLE r).

(** part_002:166-175, the body of the loop for image [i]:
    [vkCreateFramebuffer(..., &m_framebuffers[i])] writes the handle on
    success and leaves the element as it is otherwise. *)
Definition createFramebuffer (i : Z) (_ : unit) : M State unit :=
  slot ← indexFramebuffers i;
  r ← vkCreate;
  emit (outcomeEvent Framebuffer r);;
  match r with
  | Some h => fbs ← get_framebuffers; set_framebuffers (<[slot := h]> fbs)
  | None => mret tt
  end.

(** part_002:162-177.  The image count does not change while the loop
    runs. *)
Definition createFramebuffers : M State unit :=
  count ← getImageCount;
  fbs ← get_framebuffers;
  set_framebuffers (resizeVec (Z.to_nat count) fbs);;
  forLoop (S (Z.to_nat count)) (λ i, i <? count) (λ i, u32 (i + 1))
    createFramebuffer 0 tt.

(** part_002:181-184, the range-based loop. *)
Fixpoint destroyEach (fbs : list Z) : M State unit :=
  match fbs with
  | [] => mret tt
  | framebuffer :: rest => emit (Destroy (Framebuffer framebuffer));; destroyEach rest
  end.

(** part_002:179-186 *)
Definition destroyFramebuffers : M State unit :=
  fbs ← get_framebuffers;
  destroyEach fbs;;
  set_framebuffers [].

(** part_002:188-250 *)
Definition createPipeline : M State unit :=
  vertShader ← createHandle ShaderModule;
  fragShader ← createHandle ShaderModule;
  create PipelineLayout;;
  create Pipeline;;
  emit (Destroy (ShaderModule vertShader));;
  emit (Destroy (ShaderModule fragShader)).

(** part_002:60-116; [width], [height] are the window size and [count]
    the number of swap chain images. *)
Definition begin (width height count : Z) : M State bool :=
  create Context;;
  create Swapchain;;
  updateSwapchain width height count;;
  create DescriptorPool;;
  create CmdPool;;
  create RenderPass;;
  createFramebuffers;;
  createPipeline;;
  mret true.


(** part_002:131-151; [activeImageIndex] is
    [m_swapchain.getActiveImageIndex()].  [DrawFrame] stands for the
    render pass begun on the framebuffer, the pipeline bound, the draw
    of 3 vertices and the render pass ended, all recorded into [cmd]. *)
Definition think (activeImageIndex : Z) : M State unit :=
  cmd ← createHandle CommandBuffer;
  slot ← indexFramebuffers activeImageIndex;
  fbs ← get_framebuffers;
  emit (DrawFrame cmd (default VK_NULL_HANDLE (fbs !! slot)) 3);;
  emit (Present cmd).

(** part_002:153-159 *)
Definition resize (width height count : Z) : M State unit :=
  emit DeviceWaitIdle;;
  destroyFramebuffers;;
  updateSwapchain width height count;;
  createFramebuffers.

(** What the window system asks of the application between [begin] and
    [end]. *)
Inductive Input :=
| Think (activeImageIndex : Z)
| Resize (width height count : Z).

Definition handle (input : Input) : M State unit :=
  match input with
  | Think activeImageIndex => think activeImageIndex
  | Resize width height count => resize width height count
  end.

Fixpoint handleAll (inputs : list Input) : M State unit :=
  match inputs with
  | [] => mret tt
  | input :: rest => handle input;; handleAll rest
  end.


End WithDevice.

(** The inputs the window system can give when the swap chain has
    [count] images: image counts are [uint32_t] values and the active
    image is one of the swap chain's. *)
Fixpoint inputsOk (count : Z) (inputs : list Input) : bool :=
  match inputs with
  | [] => true
  | Think activeImageIndex :: rest =>
      bool_decide (0 <= activeImageIndex < count) && inputsOk count rest
  | Resize _ _ count' :: rest => is_u32b count' && inputsOk count' rest
  end.

(** The creating calls [begin] makes before the first
    [vkCreateFramebuffer]: context, swap chain, descriptor pool, command
    pool, render pass. *)
Definition callsBeforeFramebuffers : Z := 5.

(** *** Checking a log *)

(** [l] without the first [x] in it. *)
Fixpoint removeFirst {A} `{EqDecision A} (x : A) (l : list A) : list A :=
  match l with
  | [] => []
  | y :: l' => if decide (x = y) then l' else y :: removeFirst x l'
  end.

(** The objects alive at a point of the log.  Each list holds an object
    as many times as it was created and not yet destroyed. *)
Record Live := {
  liveObjects : list Object;     (* all but the next two kinds, oldest first *)
  liveFramebuffers : list Z;     (* oldest first *)
  recording : list Z             (* command buffers obtained and not yet presented *)
}.

(** Follows one event.  A framebuffer is created for the live render
    pass, a command buffer is taken from the live command pool; an
    object is destroyed, or a command buffer presented, only if it is
    alive; a frame is drawn only into a live framebuffer, recorded into
    a command buffer not yet presented, with the render pass and the
    pipeline alive. *)
Definition replayEvent (live : Live) (e : Event) : option Live :=
  match e with
  | Create (Framebuffer h) =>
      if bool_decide (RenderPass ∈ liveObjects live)
      then Some {| liveObjects := liveObjects live;
                   liveFramebuffers := liveFramebuffers live ++ [h];
                   recording := recording live |}
      else None
  | Create (CommandBuffer cmd) =>
      if bool_decide (CmdPool ∈ liveObjects live)
      then Some {| liveObjects := liveObjects live;
                   liveFramebuffers := liveFramebuffers live;
                   recording := recording live ++ [cmd] |}
      else None
  | Create o =>
      Some {| liveObjects := liveObjects live ++ [o];
              liveFramebuffers := liveFramebuffers live;
              recording := recording live |}
  | CreateFailed => Some live
  | Destroy (Framebuffer h) =>
      if bool_decide (h ∈ liveFramebuffers live)
      then Some {| liveObjects := liveObjects live;
                   liveFramebuffers := removeFirst h (liveFramebuffers live);
                   recording := recording live |}
      else None
  | Destroy (CommandBuffer cmd) =>
      if bool_decide (cmd ∈ recording live)
      then Some {| liveObjects := liveObjects live;
                   liveFramebuffers := liveFramebuffers live;
                   recording := removeFirst cmd (recording live) |}
      else None
  | Destroy o =>
      if bool_decide (o ∈ liveObjects live)
      then Some {| liveObjects := removeFirst o (liveObjects live);
                   liveFramebuffers := liveFramebuffers live;
                   recording := recording live |}
      else None
  | DrawFrame cmd h _ =>
      if bool_decide (cmd ∈ recording live ∧ h ∈ liveFramebuffers live
                      ∧ RenderPass ∈ liveObjects live ∧ Pipeline ∈ liveObjects live)
      then Some live else None
  | Present cmd =>
      if bool_decide (cmd ∈ recording live ∧ Swapchain ∈ liveObjects live)
      then Some {| liveObjects := liveObjects live;
                   liveFramebuffers := liveFramebuffers live;
                   recording := removeFirst cmd (recording live) |}
      else None
  | UpdateSwapchain _ _ =>
      if bool_decide (Swapchain ∈ liveObjects live) then Some live else None
  | DeviceWaitIdle =>
      if bool_decide (Context ∈ liveObjects live) then Some live else None
  end.

Fixpoint replay (live : Live) (events : list Event) : option Live :=
  match events with
  | [] => Some live
  | e :: rest =>
      match replayEvent live e with
      | Some live' => replay live' rest
      | None => None
      end
  end.

Definition nothingLive : Live :=
  {| liveObjects := []; liveFramebuffers := []; recording := [] |}.

(** The objects that live from [begin] to [end], oldest first. *)
Definition longLived : list Object :=
  [Context; Swapchain; DescriptorPool; CmdPool; RenderPass; PipelineLayout; Pipeline].

(** The log so far is in order, the objects alive are the long-lived
    ones and the framebuffers of the vector, which are as many as the
    swap chain has images, and no command buffer is held back. *)
Definition consistent (st : State) : Prop :=
  replay nothingLive (log st)
  = Some {| liveObjects := longLived; liveFramebuffers := m_framebuffers st;
            recording := [] |}
  ∧ length (m_framebuffers st) = Z.to_nat (imageCount st)
  ∧ is_u32 (imageCount st).

(** A device on which every creating call succeeds. *)
Definition reliable (device : Z → option Z) : Prop := ∀ call, is_Some (device call).

(** Two devices to run the model on: one that never fails, and one whose
    call number 6, the [vkCreateFramebuffer] for image 1 in [begin],
    fails. *)
Definition goodDevice : Z → option Z := λ call, Some (100 + call).

End Window.

(** ** Theorems *)

Section SbtStride.
Import Sbt.

Lemma sbtStride_nowrap hs ba :
  is_u32 hs -> is_u32 ba -> 0 < ba ->
  sbtStride hs ba = ba * ((hs + ba - 1) / ba).
Proof.
  unfold is_u32, sbtStride, u64. intros Hh Hb Hpos.
  assert (H33 : 2 ^ 32 + 2 ^ 32 < 2 ^ 64) by reflexivity.
  rewrite (Z.mod_small (hs + ba)) by lia.
  rewrite (Z.mod_small (hs + ba - 1)) by lia.
  apply Z.mod_small.
  pose proof (Z.mul_div_le (hs + ba - 1) ba Hpos).
  assert (0 <= (hs + ba - 1) / ba) by (apply Z.div_pos; lia).
  nia.
Qed.

Lemma sbtStride_multiple hs ba :
  is_u32 hs -> is_u32 ba -> 0 < ba -> (ba | sbtStride hs ba).
Proof.
  intros. rewrite sbtStride_nowrap by assumption.
  exists ((hs + ba - 1) / ba). ring.
Qed.

Lemma sbtStride_ge hs ba :
  is_u32 hs -> is_u32 ba -> 0 < ba -> hs <= sbtStride hs ba.
Proof.
  intros Hh Hb Hpos. rewrite sbtStride_nowrap by assumption.
  pose proof (Z.div_mod (hs + ba - 1) ba ltac:(lia)).
  pose proof (Z.mod_pos_bound (hs + ba - 1) ba Hpos). lia.
Qed.


Lemma sbtSetup_cases p :
  is_u32 (shaderGroupHandleSize p) -> is_u32 (shaderGroupBaseAlignment p) ->
  0 < shaderGroupBaseAlignment p -> 0 < shaderGroupHandleAlignment p ->
  shaderGroupBaseAlignment p mod shaderGroupHandleAlignment p = 0 ->
  let stride := sbtStride (shaderGroupHandleSize p) (shaderGroupBaseAlignment p) in
  sbtSetup p = if stride <=? maxShaderGroupStride p then Done stride else Abort.
Proof.
  intros _ _ Hb Ha Hmod. unfold sbtSetup. cbv zeta.
  rewrite (proj2 (Z.eqb_neq (shaderGroupHandleAlignment p) 0)) by lia.
  rewrite Hmod. cbn [Z.eqb negb].
  rewrite (proj2 (Z.eqb_neq (shaderGroupBaseAlignment p) 0)) by lia.
  destruct (_ <=? _); reflexivity.
Qed.

(** C1.  For device properties in [uint32_t] range with positive handle
    size and alignments and [baseAlignment % handleAlignment == 0], the
    stride of main.cpp:98 is a multiple of the base alignment and at
    least the handle size; the start-up code yields this stride exactly
    when it is at most [maxShaderGroupStride] and stops on the failed
    assertion otherwise; and handle size 32 with base alignment 64
    gives stride 64. *)
Theorem sbt_stride_aligned (handleSize baseAlignment handleAlignment maxGroupStride : Z) :
  is_u32 handleSize -> is_u32 baseAlignment -> is_u32 handleAlignment ->
  0 < handleSize -> 0 < baseAlignment -> 0 < handleAlignment ->
  baseAlignment mod handleAlignment = 0 ->
  (baseAlignment | sbtStride handleSize baseAlignment)
  /\ handleSize <= sbtStride handleSize baseAlignment
  /\ (sbtSetup {| shaderGroupHandleSize := handleSize;
                  shaderGroupBaseAlignment := baseAlignment;
                  shaderGroupHandleAlignment := handleAlignment;
                  maxShaderGroupStride := maxGroupStride |}
      = if sbtStride handleSize baseAlignment <=? maxGroupStride
        then Done (sbtStride handleSize baseAlignment) else Abort)
  /\ (forall s,
        sbtSetup {| shaderGroupHandleSize := handleSize;
                    shaderGroupBaseAlignment := baseAlignment;
                    shaderGroupHandleAlignment := handleAlignment;
                    maxShaderGroupStride := maxGroupStride |} = Done s ->
        s = sbtStride handleSize baseAlignment /\ s <= maxGroupStride)
  /\ sbtStride 32 64 = 64.
Proof.
  intros Hh Hb Ha Hhpos Hbpos Hapos Hmod.
  pose proof (sbtSetup_cases
                {| shaderGroupHandleSize := handleSize;
                   shaderGroupBaseAlignment := baseAlignment;
                   shaderGroupHandleAlignment := handleAlignment;
                   maxShaderGroupStride := maxGroupStride |}
                Hh Hb Hbpos Hapos Hmod) as Hsetup.
  cbn [shaderGroupHandleSize shaderGroupBaseAlignment maxShaderGroupStride] in Hsetup.
  split; [ by apply sbtStride_multiple | ].
  split; [ by apply sbtStride_ge | ].
  split; [ exact Hsetup | ].
  split; [ | reflexivity ].
  intros s Hs. rewrite Hsetup in Hs.
  destruct (Z.leb_spec (sbtStride handleSize baseAlignment) maxGroupStride);
    [ | discriminate ].
  injection Hs as <-. split; [ reflexivity | assumption ].
Qed.

(** The [uint32_t] size of main.cpp:462 is the size of the whole table as
    long as that is below [2 ^ 32]. *)
Lemma sbtSize_exact groupCount stride :
  0 <= stride * groupCount < 2 ^ 32 ->
  sbtSize groupCount stride = stride * groupCount.
Proof.
  intros Hfit. unfold sbtSize, u32, u64.
  rewrite (Z.mod_small _ (2 ^ 64)) by lia. apply Z.mod_small. lia.
Qed.

End SbtStride.

Lemma sbt_stride_aligned_witness :
  Sbt.sbtStride 32 64 = 64
  /\ (64 | Sbt.sbtStride 32 64)
  /\ 32 <= Sbt.sbtStride 32 64
  /\ Sbt.sbtSetup {| Sbt.shaderGroupHandleSize := 32;
                     Sbt.shaderGroupBaseAlignment := 64;
                     Sbt.shaderGroupHandleAlignment := 32;
                     Sbt.maxShaderGroupStride := 4096 |} = Done 64.
Proof.
  destruct (sbt_stride_aligned 32 64 32 4096) as (Hdiv & Hge & Hsetup & _ & Hex);
    [ unfold is_u32; lia .. | reflexivity | ].
  split; [ exact Hex | ].
  split; [ exact Hdiv | ].
  split; [ exact Hge | ].
  rewrite Hsetup. reflexivity.
Defined.

Lemma forLoop_unfold {T} `{MRet T, MBind T, MonadFuel T} {A}
    (fuel : nat) (cond : Z → bool) (step : Z → Z) (body : Z → A → T A) i a :
  forLoop (S fuel) cond step body i a
  = if cond i then a' ← body i a; forLoop fuel cond step body (step i) a'
    else mret a.
Proof. reflexivity. Qed.

(** *** Counting loops end before the fuel does *)

Section Loops.
Context {St A : Type}.
Implicit Types (body : Z → A → M St A) (cond : Z → bool) (step : Z → Z).

Lemma M_bind_ext {B} (k : A → M St B) (m m' : M St A) (st : St) :
  m st = m' st → (m ≫= k) st = (m' ≫= k) st.
Proof. unfold mbind, M_bind. by intros ->. Qed.

Lemma forEach_ext body body' (indices : list Z) :
  (∀ i a st, body i a st = body' i a st) →
  ∀ a st, forEach body indices a st = forEach body' indices a st.
Proof.
  intros Hext. induction indices as [|i indices IH]; intros a st; [ reflexivity | ].
  cbn [forEach]. unfold mbind, M_bind. rewrite Hext.
  destruct (body' i a st) as [st' [a'| | | ]]; auto.
Qed.

(** A loop whose condition holds on [lo, lo + n), fails at [lo + n], and
    whose step is [+ 1] there, runs its body on [lo, ..., lo + n - 1] when
    given more than [n] units of fuel. *)
Lemma forLoop_counts cond step body (n : nat) :
  ∀ (fuel : nat) (lo : Z) (a : A) (st : St),
    (n < fuel)%nat →
    (∀ j, lo <= j < lo + Z.of_nat n → cond j = true ∧ step j = j + 1) →
    cond (lo + Z.of_nat n) = false →
    forLoop fuel cond step body lo a st
    = forEach body (seqZ lo (Z.of_nat n)) a st.
Proof.
  induction n as [|n IH]; intros fuel lo a st Hfuel Hin Hend;
    (destruct fuel as [|fuel]; [ lia | ]); rewrite forLoop_unfold.
  - rewrite Z.add_0_r in Hend. rewrite Hend. reflexivity.
  - destruct (Hin lo ltac:(lia)) as [-> ->].
    rewrite seqZ_cons by lia. cbn [forEach]. unfold mbind, M_bind.
    destruct (body lo a st) as [st' [a'| | | ]]; try reflexivity.
    replace (Z.pred (Z.of_nat (S n))) with (Z.of_nat n) by lia.
    apply IH; [ lia | intros j Hj; apply Hin; lia | ].
    replace (Z.succ lo + Z.of_nat n) with (lo + Z.of_nat (S n)) by lia.
    exact Hend.
Qed.

End Loops.

Section ListSlices.
Context {A : Type}.
Implicit Types l k : list A.

Lemma read_inserts_same l k off :
  (off + length k ≤ length l)%nat →
  take (length k) (drop off (list_inserts off k l)) = k.
Proof.
  intros Hlen. apply list_eq; intros i.
  destruct (decide (i < length k)%nat) as [Hi|Hi].
  - rewrite lookup_take_lt, lookup_drop by done.
    rewrite list_lookup_inserts by lia. f_equal; lia.
  - rewrite lookup_take_ge by lia. symmetry. apply lookup_ge_None. lia.
Qed.

Lemma read_inserts_disjoint l k off off' n :
  (off' + n ≤ off ∨ off + length k ≤ off')%nat →
  take n (drop off' (list_inserts off k l)) = take n (drop off' l).
Proof.
  intros Hdisj. apply list_eq; intros i.
  destruct (decide (i < n)%nat) as [Hi|Hi].
  - rewrite !lookup_take_lt, !lookup_drop by done.
    destruct Hdisj; [ apply list_lookup_inserts_lt | apply list_lookup_inserts_ge ]; lia.
  - by rewrite !lookup_take_ge by lia.
Qed.

Lemma read_agree l l' off n :
  (∀ p, off ≤ p < off + n → l' !! p = l !! p)%nat →
  take n (drop off l') = take n (drop off l).
Proof.
  intros Hagree. apply list_eq; intros i.
  destruct (decide (i < n)%nat) as [Hi|Hi].
  - rewrite !lookup_take_lt, !lookup_drop by done. apply Hagree. lia.
  - by rewrite !lookup_take_ge by lia.
Qed.

End ListSlices.

Section SbtPacking.
Import Sbt.

Variables (groupCount sbtStride sbtHeaderSize : Z).
Variable cpuShaderHandleStorage : list Byte.byte.
Hypothesis Hsize : 0 < sbtHeaderSize <= sbtStride.
Hypothesis Hcount : 0 <= groupCount.
Hypothesis Hfits : groupCount * sbtStride < 2 ^ 64.
Hypothesis Hstorage :
  length cpuShaderHandleStorage = Z.to_nat (groupCount * sbtHeaderSize).

Lemma slot_offsets i :
  0 <= i < groupCount →
  u64 (i * sbtStride) = i * sbtStride
  ∧ u64 (i * sbtHeaderSize) = i * sbtHeaderSize
  ∧ u64 (i + 1) = i + 1
  ∧ 0 <= i * sbtHeaderSize ∧ 0 <= i * sbtStride
  ∧ i * sbtStride + sbtStride <= groupCount * sbtStride
  ∧ i * sbtHeaderSize + sbtHeaderSize <= groupCount * sbtHeaderSize.
Proof.
  intros Hi. unfold u64.
  assert (i * sbtStride + sbtStride <= groupCount * sbtStride) by nia.
  assert (i * sbtHeaderSize + sbtHeaderSize <= groupCount * sbtHeaderSize) by nia.
  assert (0 <= i * sbtHeaderSize) by nia.
  assert (i * sbtHeaderSize <= i * sbtStride) by nia.
  assert (groupCount <= groupCount * sbtStride) by nia.
  rewrite !Z.mod_small by lia. lia.
Qed.

(** The copy loop from group [i] on: it ends, keeps the slots before [i],
    fills the slots from [i] on, and leaves padding alone. *)
Lemma writeSBT_from (k : nat) :
  ∀ (i : Z) (mappedSBT : list Byte.byte),
    0 <= i → i + Z.of_nat k = groupCount →
    length mappedSBT = Z.to_nat (groupCount * sbtStride) →
    ∃ mapped',
      forLoop (S k) (λ groupIndex, groupIndex <? groupCount)
        (λ groupIndex, u64 (groupIndex + 1))
        (λ groupIndex mappedSBT,
           memcpy mappedSBT (Z.to_nat (u64 (groupIndex * sbtStride)))
                  cpuShaderHandleStorage (Z.to_nat (u64 (groupIndex * sbtHeaderSize)))
                  (Z.to_nat sbtHeaderSize))
        i mappedSBT = Done mapped'
      ∧ length mapped' = length mappedSBT
      ∧ (∀ j, 0 <= j < i →
           readHandle mapped' sbtStride sbtHeaderSize j
           = readHandle mappedSBT sbtStride sbtHeaderSize j)
      ∧ (∀ j, i <= j < groupCount →
           readHandle mapped' sbtStride sbtHeaderSize j
           = handleOf cpuShaderHandleStorage sbtHeaderSize j)
      ∧ (∀ p, (∀ j, i <= j < groupCount →
                 ¬ (j * sbtStride <= Z.of_nat p < j * sbtStride + sbtHeaderSize)) →
              mapped' !! p = mappedSBT !! p).
Proof.
  induction k as [|k IH]; intros i mappedSBT Hi Hik Hlen.
  - exists mappedSBT. rewrite forLoop_unfold.
    rewrite (proj2 (Z.ltb_ge i groupCount)) by lia.
    repeat split; try done. intros j Hj. lia.
  - assert (Hrange : 0 <= i < groupCount) by lia.
    destruct (slot_offsets i Hrange) as (Eo & Es & En & Hs0 & Ho0 & Ho & Hs).
    set (handle := take (Z.to_nat sbtHeaderSize)
                        (drop (Z.to_nat (i * sbtHeaderSize)) cpuShaderHandleStorage)).
    assert (Hhandle : length handle = Z.to_nat sbtHeaderSize).
    { unfold handle. rewrite length_take, length_drop, Hstorage. lia. }
    set (mapped1 := list_inserts (Z.to_nat (i * sbtStride)) handle mappedSBT).
    assert (Hlen1 : length mapped1 = Z.to_nat (groupCount * sbtStride)).
    { unfold mapped1. by rewrite length_inserts. }
    assert (Hcpy : memcpy mappedSBT (Z.to_nat (u64 (i * sbtStride)))
                     cpuShaderHandleStorage (Z.to_nat (u64 (i * sbtHeaderSize)))
                     (Z.to_nat sbtHeaderSize) = Done mapped1).
    { rewrite Eo, Es. unfold memcpy.
      rewrite decide_True by (rewrite Hlen, Hstorage; lia). reflexivity. }
    destruct (IH (i + 1) mapped1 ltac:(lia) ltac:(lia) Hlen1)
      as (mapped' & Hrun & Hlen' & Hbefore & Hafter & Hpad).
    rewrite forLoop_unfold. rewrite (proj2 (Z.ltb_lt i groupCount)) by lia.
    rewrite Hcpy, En. change (mbind ?f (Done ?a)) with (f a). cbv beta.
    exists mapped'. split; [ exact Hrun | ].
    split; [ congruence | ].
    split; [ | split ].
    + intros j Hj. rewrite Hbefore by lia.
      unfold readHandle, mapped1. apply read_inserts_disjoint.
      left. assert (j * sbtStride + sbtStride <= i * sbtStride) by nia.
      assert (0 <= j * sbtStride) by nia. lia.
    + intros j Hj. destruct (decide (j = i)) as [->|Hne].
      * rewrite Hbefore by lia. unfold readHandle, handleOf. fold handle.
        rewrite <- Hhandle. apply read_inserts_same. rewrite Hhandle, Hlen. lia.
      * apply Hafter. lia.
    + intros p Hp. rewrite Hpad by (intros j Hj; apply Hp; lia).
      unfold mapped1.
      destruct (decide (Z.of_nat p < i * sbtStride)) as [Hlt|Hge].
      * apply list_lookup_inserts_lt. lia.
      * apply list_lookup_inserts_ge. rewrite Hhandle.
        specialize (Hp i ltac:(lia)). lia.
Qed.

Lemma writeSBT_roundtrip (mappedSBT : list Byte.byte) :
  length mappedSBT = Z.to_nat (sbtStride * groupCount) →
  ∃ mapped',
    writeSBT groupCount sbtStride sbtHeaderSize cpuShaderHandleStorage mappedSBT
    = Done mapped'
    ∧ length mapped' = length mappedSBT
    ∧ (∀ i, 0 <= i < groupCount →
         readHandle mapped' sbtStride sbtHeaderSize i
         = handleOf cpuShaderHandleStorage sbtHeaderSize i)
    ∧ (∀ p, isPadding groupCount sbtStride sbtHeaderSize p →
            mapped' !! p = mappedSBT !! p).
Proof.
  intros Hlen. rewrite Z.mul_comm in Hlen.
  destruct (writeSBT_from (Z.to_nat groupCount) 0 mappedSBT ltac:(lia) ltac:(lia) Hlen)
    as (mapped' & Hrun & Hlen' & _ & Hafter & Hpad).
  exists mapped'. unfold writeSBT.
  split; [ exact Hrun | ]. split; [ exact Hlen' | ].
  split; [ exact Hafter | ].
  intros p Hp. apply Hpad. exact Hp.
Qed.

End SbtPacking.

Section SbtRoundTrip.
Import Sbt.

(** C3.  For device properties in [uint32_t] range, any group count whose
    table size fits [size_t], any block of [groupCount] handles of
    [handleSize] bytes and any buffer of [stride * groupCount] bytes: the
    copy loop of main.cpp:469-472 ends without leaving the buffer, keeps
    its length, and the [handleSize] bytes at offset [i * stride] are then
    handle [i], for every [i < groupCount].  Reading a handle looks only at
    those bytes (any buffer that agrees with the table on them reads the
    same), and the loop leaves every padding byte as it was. *)
Theorem sbt_pack_roundtrip (groupCount handleSize baseAlignment : Z)
    (handles mappedSBT : list Byte.byte) :
  is_u32 handleSize -> is_u32 baseAlignment ->
  0 < handleSize -> 0 < baseAlignment -> 0 <= groupCount ->
  groupCount * sbtStride handleSize baseAlignment < 2 ^ 64 ->
  length handles = Z.to_nat (groupCount * handleSize) ->
  length mappedSBT = Z.to_nat (sbtStride handleSize baseAlignment * groupCount) ->
  exists mapped',
    writeSBT groupCount (sbtStride handleSize baseAlignment) handleSize handles mappedSBT
    = Done mapped'
    /\ length mapped' = length mappedSBT
    /\ (forall i, 0 <= i < groupCount ->
          readHandle mapped' (sbtStride handleSize baseAlignment) handleSize i
          = handleOf handles handleSize i)
    /\ (forall i other, 0 <= i < groupCount ->
          (forall p : nat,
              i * sbtStride handleSize baseAlignment <= Z.of_nat p
                < i * sbtStride handleSize baseAlignment + handleSize ->
              other !! p = mapped' !! p) ->
          readHandle other (sbtStride handleSize baseAlignment) handleSize i
          = handleOf handles handleSize i)
    /\ (forall p, isPadding groupCount (sbtStride handleSize baseAlignment) handleSize p ->
          mapped' !! p = mappedSBT !! p).
Proof.
  intros Hh Hb Hhpos Hbpos Hcount Hfits Hhandles Hlen.
  pose proof (sbtStride_ge handleSize baseAlignment Hh Hb Hbpos) as Hge.
  destruct (writeSBT_roundtrip groupCount (sbtStride handleSize baseAlignment)
              handleSize handles ltac:(lia) Hcount Hfits Hhandles mappedSBT Hlen)
    as (mapped' & Hrun & Hlen' & Hread & Hpad).
  exists mapped'. repeat split; try assumption.
  intros i other Hi Hagree. rewrite <- (Hread i Hi). unfold readHandle.
  apply read_agree. intros p Hp. apply Hagree.
  assert (0 <= i * sbtStride handleSize baseAlignment) by nia. lia.
Qed.

End SbtRoundTrip.

Lemma sbt_pack_roundtrip_witness :
  exists mapped',
    Sbt.writeSBT 2 (Sbt.sbtStride 4 8) 4
      [Byte.x01; Byte.x02; Byte.x03; Byte.x04; Byte.x05; Byte.x06; Byte.x07; Byte.x08]
      (replicate 16 Byte.xff) = Done mapped'
    /\ Sbt.readHandle mapped' (Sbt.sbtStride 4 8) 4 0
       = [Byte.x01; Byte.x02; Byte.x03; Byte.x04]
    /\ Sbt.readHandle mapped' (Sbt.sbtStride 4 8) 4 1
       = [Byte.x05; Byte.x06; Byte.x07; Byte.x08].
Proof.
  destruct (sbt_pack_roundtrip 2 4 8
              [Byte.x01; Byte.x02; Byte.x03; Byte.x04;
               Byte.x05; Byte.x06; Byte.x07; Byte.x08] (replicate 16 Byte.xff))
    as (mapped' & Hrun & _ & Hread & _);
    [ unfold is_u32; lia | unfold is_u32; lia | lia | lia | lia
    | reflexivity | reflexivity | reflexivity | ].
  exists mapped'. split; [ exact Hrun | ].
  split; [ rewrite (Hread 0) by lia | rewrite (Hread 1) by lia ]; reflexivity.
Defined.

(** ** Accumulation in the ray-generation shaders *)

Section Accumulation.
Import RayGen.

(** At frame 0 the accumulating shader stores the raw result, in any
    arithmetic. *)
Lemma accumStore_frame0 {F} `{FloatOps F} (raw : vec3 F) (pixel : vec4 F) :
  accumStore 0 raw pixel = Vec4 raw (f_of_int 1).
Proof. reflexivity. Qed.

(** Over the rationals: at frame 1 the weight [1.0 / pcRay.frame] is 1, so
    the stored colour is the new result whatever the image held. *)
Lemma accumStore_frame1_Q (raw : vec3 Q) (pixel : vec4 Q) :
  vx (rgb (accumStore 1 raw pixel)) == vx raw
  /\ vy (rgb (accumStore 1 raw pixel)) == vy raw
  /\ vz (rgb (accumStore 1 raw pixel)) == vz raw.
Proof.
  unfold accumStore, mix3, mix. cbn.
  repeat split; field.
Qed.

(** Over the rationals: at frame [k > 0] the code blends with weight
    [1 / k], where the spec has [1 / (k + 1)]. *)
Lemma accumStore_weight_Q (k : Z) (raw : vec3 Q) (pixel : vec4 Q) :
  0 < k ->
  vx (rgb (accumStore k raw pixel))
  == mix (vx (rgb pixel)) (vx raw) (1 / inject_Z k)%Q
  /\ vx (rgb (specStore k raw pixel))
     == mix (vx (rgb pixel)) (vx raw) (1 / inject_Z (k + 1))%Q.
Proof.
  intros Hk. unfold accumStore, specStore.
  rewrite (proj2 (Z.eqb_neq k 0)) by lia. cbn. split; reflexivity.
Qed.

(** C2, at the spec's own example (constant batches 1.0 then 3.0), in IEEE
    binary32 and over the rationals: frame 0 stores the raw 1.0, and
    after frame 1 the accumulating shader holds 3.0, as does the
    four-sample shader of raytrace.rgen.glsl, while the running average
    of the spec is 2.0. *)
Theorem accum_two_batches_gives_3 (pixel : vec4 spec_float) (pixelQ : vec4 Q) :
  accumBatches 0 [vec3_splat (b32_of_int 1)] pixel
  = Vec4 (vec3_splat (b32_of_int 1)) (b32_of_int 1)
  /\ accumBatches 0 [vec3_splat (b32_of_int 1); vec3_splat (b32_of_int 3)] pixel
     = Vec4 (vec3_splat (b32_of_int 3)) (b32_of_int 1)
  /\ rgenBatches [vec3_splat (b32_of_int 1); vec3_splat (b32_of_int 3)] pixel
     = Vec4 (vec3_splat (b32_of_int 3)) (b32_of_int 1)
  /\ specBatches 0 [vec3_splat (b32_of_int 1); vec3_splat (b32_of_int 3)] pixel
     = Vec4 (vec3_splat (b32_of_int 2)) (b32_of_int 1)
  /\ b32_of_int 3 <> b32_of_int 2
  /\ accumBatches 0 [vec3_splat (inject_Z 1); vec3_splat (inject_Z 3)] pixelQ
     = Vec4 (vec3_splat (inject_Z 3)) (inject_Z 1)
  /\ vx (rgb (specBatches 0 [vec3_splat (inject_Z 1); vec3_splat (inject_Z 3)] pixelQ))
     == inject_Z 2
  /\ ~ inject_Z 3 == inject_Z 2.
Proof.
  repeat split; try (vm_compute; reflexivity).
  - vm_compute. discriminate.
  - vm_compute. discriminate.
Qed.

End Accumulation.

(** ** Device properties and the start-up assertions *)

Section DeviceProperties.
Import Sbt Host HostTrace.

Lemma propsInRange_facts p :
  propsInRange p = true ->
  is_u32 (shaderGroupHandleSize p) /\ is_u32 (shaderGroupBaseAlignment p)
  /\ is_u32 (shaderGroupHandleAlignment p) /\ is_u32 (maxShaderGroupStride p)
  /\ 0 < shaderGroupHandleSize p /\ 0 < shaderGroupBaseAlignment p
  /\ 0 < shaderGroupHandleAlignment p.
Proof.
  unfold propsInRange, is_u32b, is_u32. intros H.
  repeat match goal with
         | H : _ && _ = true |- _ => apply andb_prop in H; destruct H
         | H : (_ <? _) = true |- _ => apply Z.ltb_lt in H
         | H : (_ <=? _) = true |- _ => apply Z.leb_le in H
         end.
  repeat split; assumption.
Qed.

Lemma propsOk_split p :
  propsInRange p = true ->
  propsOk p
  = (shaderGroupBaseAlignment p mod shaderGroupHandleAlignment p =? 0)
    && (sbtStride (shaderGroupHandleSize p) (shaderGroupBaseAlignment p)
        <=? maxShaderGroupStride p).
Proof.
  unfold propsInRange, propsOk. intros ->. reflexivity.
Qed.

(** With device properties in range, the start-up code either yields the
    stride or stops on one of its two assertions. *)
Lemma sbtSetup_in_range p :
  propsInRange p = true ->
  sbtSetup p
  = if propsOk p
    then Done (sbtStride (shaderGroupHandleSize p) (shaderGroupBaseAlignment p))
    else Abort.
Proof.
  intros Hr. rewrite (propsOk_split p Hr).
  destruct (propsInRange_facts p Hr) as (Hh & Hb & _ & _ & _ & Hbpos & Hapos).
  destruct (Z.eqb_spec
              (shaderGroupBaseAlignment p mod shaderGroupHandleAlignment p) 0)
    as [Hmod|Hmod]; cbn [andb].
  - apply (sbtSetup_cases p Hh Hb Hbpos Hapos Hmod).
  - unfold sbtSetup. cbv zeta.
    rewrite (proj2 (Z.eqb_neq (shaderGroupHandleAlignment p) 0)) by lia.
    rewrite (proj2 (Z.eqb_neq _ 0) Hmod). reflexivity.
Qed.

End DeviceProperties.

(** ** Runs of the host program *)

Section HostRun.
Import Sbt Host.
Context {Rest : Type} (restZero : Rest).

Lemma envOk_parts env :
  envOk env = true ->
  propsOk (rtPipelineProperties env) = true
  /\ readerValid env = true
  /\ length (objShapes env) = 1%nat.
Proof.
  unfold envOk, meshOk. intros H.
  apply andb_prop in H as [Hp H]. apply andb_prop in H as [Hv Hs].
  apply bool_decide_eq_true in Hs. auto.
Qed.

Lemma propsOk_facts p :
  propsOk p = true ->
  is_u32 (shaderGroupHandleSize p) /\ is_u32 (shaderGroupBaseAlignment p)
  /\ is_u32 (maxShaderGroupStride p)
  /\ 0 < shaderGroupHandleSize p /\ 0 < shaderGroupBaseAlignment p
  /\ 0 < shaderGroupHandleAlignment p
  /\ shaderGroupBaseAlignment p mod shaderGroupHandleAlignment p = 0
  /\ sbtStride (shaderGroupHandleSize p) (shaderGroupBaseAlignment p)
     <= maxShaderGroupStride p.
Proof.
  unfold propsOk, is_u32b, is_u32. intros H.
  repeat match goal with
         | H : _ && _ = true |- _ => apply andb_prop in H; destruct H
         | H : (_ <? _) = true |- _ => apply Z.ltb_lt in H
         | H : (_ <=? _) = true |- _ => apply Z.leb_le in H
         | H : (_ =? _) = true |- _ => apply Z.eqb_eq in H
         end.
  repeat split; assumption.
Qed.

Lemma sbtSetup_ok p :
  propsOk p = true ->
  sbtSetup p = Done (sbtStride (shaderGroupHandleSize p) (shaderGroupBaseAlignment p)).
Proof.
  intros Hp.
  destruct (propsOk_facts p Hp) as (Hh & Hb & _ & _ & Hbpos & Hapos & Hmod & Hmax).
  rewrite (sbtSetup_cases p Hh Hb Hbpos Hapos Hmod).
  cbv zeta. by rewrite (proj2 (Z.leb_le _ _) Hmax).
Qed.

(** The table main.cpp writes: its one handle is the block the driver
    returned. *)
Lemma writeSBT_main env :
  propsOk (rtPipelineProperties env) = true ->
  exists mapped',
    writeSBT groups_size
      (sbtStride (shaderGroupHandleSize (rtPipelineProperties env))
                 (shaderGroupBaseAlignment (rtPipelineProperties env)))
      (shaderGroupHandleSize (rtPipelineProperties env))
      (shaderGroupHandles env
         <$> seq 0 (Z.to_nat (u64 (shaderGroupHandleSize (rtPipelineProperties env)
                                   * groups_size))))
      (mappedMemory env
         <$> seq 0 (Z.to_nat
                      (sbtSize groups_size
                         (sbtStride
                            (shaderGroupHandleSize (rtPipelineProperties env))
                            (shaderGroupBaseAlignment (rtPipelineProperties env))))))
    = Done mapped'.
Proof.
  intros Hp.
  destruct (propsOk_facts _ Hp) as (Hh & Hb & Hm & Hhpos & Hbpos & _ & _ & Hmax).
  pose proof (sbtStride_ge _ _ Hh Hb Hbpos) as Hge.
  rewrite sbtSize_exact by (unfold is_u32, groups_size in *; lia).
  unfold is_u32 in *. unfold groups_size, u64.
  rewrite !Z.mul_1_r.
  rewrite (Z.mod_small (shaderGroupHandleSize _)) by lia.
  edestruct (writeSBT_roundtrip 1
               (sbtStride (shaderGroupHandleSize (rtPipelineProperties env))
                          (shaderGroupBaseAlignment (rtPipelineProperties env)))
               (shaderGroupHandleSize (rtPipelineProperties env)))
    as (mapped' & Hrun & _); [ | | | | | exists mapped'; exact Hrun ].
  - lia.
  - lia.
  - lia.
  - rewrite length_fmap, length_seq. f_equal. lia.
  - rewrite length_fmap, length_seq. f_equal. lia.
Qed.

Lemma Forall_fmap_const {A B} (f : A → B) (n : nat) (c : B) (l : list A) :
  f <$> l = replicate n c → Forall (λ x, f x = c) l.
Proof.
  intros Heq.
  assert (Hall : Forall (λ y, y = c) (f <$> l)).
  { rewrite Heq. by apply Forall_replicate. }
  by rewrite Forall_fmap in Hall.
Qed.

(** The sample batch loop runs its body on 0, 1, ..., 31. *)
Lemma renderLoop_batches (regions : Regions) (st : HostState (Rest := Rest)) :
  renderLoop regions st = forEach (renderBatch regions) (seqZ 0 32) tt st.
Proof.
  unfold renderLoop, NUM_SAMPLE_BATCHES.
  apply (forLoop_counts _ _ _ 32); [ cbn; lia | | reflexivity ].
  intros j Hj. unfold u32. split; [ apply Z.ltb_lt; lia | ].
  apply Z.mod_small. lia.
Qed.

(** The grid loops run their body on every [(x, y)] of
    [-10 .. 10] x [-10 .. 10], [x] outermost. *)
Lemma buildInstances_grid (env : Env) (st : HostState (Rest := Rest)) :
  buildInstances env st
  = (acc ← forEach (λ x acc, forEach (gridBody env x) (seqZ (-10) 21) acc)
             (seqZ (-10) 21) ([], O);
     mret acc.1) st.
Proof.
  unfold buildInstances. apply M_bind_ext.
  rewrite (forLoop_counts _ _ _ 21 22 (-10));
    [ | lia | intros j Hj; split; [ apply Z.leb_le; lia | reflexivity ] | reflexivity ].
  apply forEach_ext. intros x acc st'.
  apply (forLoop_counts _ _ _ 21 22 (-10));
    [ lia | intros j Hj; split; [ apply Z.leb_le; lia | reflexivity ] | reflexivity ].
Qed.

Lemma bind_Done {St A B} (k : A → M St B) (a : A) :
  (liftOutcome (Done a) ≫= k) = k a.
Proof. reflexivity. Qed.

(** Resolves what a run of [main] in a good environment depends on, so
    that the run can be evaluated. *)
Ltac run_main env Hok :=
  let Hp := fresh "Hp" in
  let Hv := fresh "Hv" in
  let Hs := fresh "Hs" in
  let mapped' := fresh "mapped'" in
  let Hw := fresh "Hw" in
  destruct (envOk_parts env Hok) as (Hp & Hv & Hs);
  destruct (writeSBT_main env Hp) as (mapped' & Hw);
  unfold strideOf, main;
  rewrite (sbtSetup_ok _ Hp), Hv, Hs; cbv zeta;
  rewrite bind_Done, Hw;
  clear Hw;
  match goal with
  | |- context [ BuildBlas ?a ?b ] =>
      let primitiveCount := fresh "primitiveCount" in
      let maxVertex := fresh "maxVertex" in
      generalize a; intros primitiveCount; generalize b; intros maxVertex
  end;
  match goal with
  | |- context [ sbtStride ?a ?b ] =>
      let stride := fresh "stride" in
      generalize (sbtStride a b); intros stride
  end.

(** C6 (as amended).  A run in a good environment completes; it creates
    thirteen device objects, each once, and after writing the image
    releases each of them once, in the reverse of the creation order but
    for the two geometry buffers, which are released vertex buffer first,
    as they were created. *)
Theorem teardown_reverse_but_geometry (env : Env) :
  envOk env = true ->
  let run := main env (initialState restZero) in
  run.2 = Done tt
  /\ created (trace run.1)
     = [Context; Allocator; Image; ImageView; ImageLinear; CmdPool; VertexBuffer;
        IndexBuffer; RaytracingBuilder; DescriptorSetContainer; RayGenModule;
        RtPipeline; RtSBTBuffer]
  /\ destroyed (trace run.1) = swapGeometryBuffers <$> rev (created (trace run.1))
  /\ NoDup (created (trace run.1)) /\ NoDup (destroyed (trace run.1))
  /\ (exists before,
        trace run.1 = before ++ WriteHdr :: (Destroy <$> destroyed (trace run.1))
        /\ destroyed before = []).
Proof.
  intros Hok run. subst run. run_main env Hok.
  split; [ vm_compute; reflexivity | ].
  split; [ vm_compute; reflexivity | ].
  split; [ vm_compute; reflexivity | ].
  split; [ refine (bool_decide_unpack _ _); vm_compute; exact I | ].
  split; [ refine (bool_decide_unpack _ _); vm_compute; exact I | ].
  match goal with
  | |- context [ trace ?st ] => exists (take 593 (trace st))
  end.
  split; vm_compute; reflexivity.
Qed.


(** C7.  A run in a good environment completes and issues 32 trace-rays
    dispatches; each is recorded after a push-constant write in its own
    command buffer, there are as many such writes as dispatches, and the
    sample batch index in effect at the dispatches is 0, 1, ..., 31 in
    this order. *)
Theorem dispatch_loop_batches (env : Env) :
  envOk env = true ->
  (main env (initialState restZero)).2 = Done tt
  /\ length (dispatches (trace (main env (initialState restZero)).1)) = 32%nat
  /\ length (pushes (trace (main env (initialState restZero)).1)) = 32%nat
  /\ (λ d, sample_batch <$> d_pushConstants d)
       <$> dispatches (trace (main env (initialState restZero)).1)
     = Some <$> seqZ 0 32.
Proof.
  intros Hok. run_main env Hok.
  repeat split; vm_compute; reflexivity.
Qed.

(** C10.  In a run in a good environment, the block handed to the [i]-th
    [vkCmdPushConstants] is the zero-initialised global with [sample_batch]
    set to [i]: every other field has its initial value in all 32 blocks
    and in the global when the run ends, and the blocks of two consecutive
    dispatches differ in [sample_batch] only. *)
Theorem push_constants_only_sample_batch (env : Env) :
  envOk env = true ->
  pushes (trace (main env (initialState restZero)).1)
  = (λ i, {| sample_batch := i; rest := restZero |}) <$> seqZ 0 32
  /\ rest (pushConstants (main env (initialState restZero)).1) = restZero
  /\ (forall (i : nat) a b,
        pushes (trace (main env (initialState restZero)).1) !! i = Some a ->
        pushes (trace (main env (initialState restZero)).1) !! S i = Some b ->
        rest a = rest b /\ rest a = restZero
        /\ sample_batch b = sample_batch a + 1).
Proof.
  intros Hok.
  assert (Hpushes :
            pushes (trace (main env (initialState restZero)).1)
            = (λ i, {| sample_batch := i; rest := restZero |}) <$> seqZ 0 32).
  { run_main env Hok. vm_compute. reflexivity. }
  split; [ exact Hpushes | ].
  split; [ run_main env Hok; vm_compute; reflexivity | ].
  rewrite Hpushes. intros i a b Ha Hb.
  apply list_lookup_fmap_Some in Ha as (x & -> & Hx).
  apply list_lookup_fmap_Some in Hb as (y & -> & Hy).
  apply lookup_seqZ in Hx as [-> _]. apply lookup_seqZ in Hy as [-> _].
  cbn [rest sample_batch]. repeat split. lia.
Qed.

(** C8.  In a run in a good environment [buildTlas] is called once, with a
    list of 441 instances, one per position of the 21 x 21 grid, each
    referring to the device address of BLAS 0; the calls on the builder
    are, in order, [buildBlas], 441 times [getBlasDeviceAddress(0)], and
    that [buildTlas]. *)
Theorem tlas_grid_instances (env : Env) :
  envOk env = true ->
  exists instances primitiveCount maxVertex,
    tlasBuilds (trace (main env (initialState restZero)).1) = [instances]
    /\ length instances = 441%nat
    /\ Forall (λ inst, accelerationStructureReference inst = blasDeviceAddress env 0)
              instances
    /\ gridPosition <$> instances
       = Some <$> (x ← seqZ (-10) 21; y ← seqZ (-10) 21; [(x, y)])
    /\ builderCalls (trace (main env (initialState restZero)).1)
       = BuildBlas primitiveCount maxVertex
         :: replicate 441 (GetBlasDeviceAddress 0) ++ [BuildTlas instances].
Proof.
  intros Hok.
  exists (default [] (head (tlasBuilds (trace (main env (initialState restZero)).1)))).
  run_main env Hok. exists primitiveCount, maxVertex.
  split; [ vm_compute; reflexivity | ].
  split; [ vm_compute; reflexivity | ].
  split; [ | split; vm_compute; reflexivity ].
  apply (Forall_fmap_const accelerationStructureReference 441).
  vm_compute. reflexivity.
Qed.

(** C4.  The four regions are cut from the one table: the ray-generation
    region starts at the table's address (group 0) and is one stride
    long (one group); the miss, hit and callable regions have size 0, the
    same stride and the same, table-start address.  In a run in a good
    environment every dispatch is issued with these four regions, for the
    address of the SBT buffer and the stride computed at start-up. *)
Theorem sbt_regions_layout (env : Env) :
  envOk env = true ->
  (forall start stride,
      sbtRayGenRegion (sbtRegions start stride)
      = {| deviceAddress := start + 0 * stride; stride := stride;
           size := groups_size * stride |}
      /\ Forall (λ r, size r = 0 /\ Sbt.stride r = stride /\ deviceAddress r = start)
                [sbtMissRegion (sbtRegions start stride);
                 sbtHitRegion (sbtRegions start stride);
                 sbtCallableRegion (sbtRegions start stride)])
  /\ dispatches (trace (main env (initialState restZero)).1) <> []
  /\ Forall (λ d, d_regions d
                  = sbtRegions (bufferDeviceAddress env RtSBTBuffer) (strideOf env))
            (dispatches (trace (main env (initialState restZero)).1)).
Proof.
  intros Hok. split.
  { intros start stride. unfold sbtRegions, set_size, groups_size.
    cbn [sbtRayGenRegion sbtMissRegion sbtHitRegion sbtCallableRegion
         deviceAddress Sbt.stride size].
    split; [ f_equal; lia | repeat constructor ]. }
  run_main env Hok.
  split; [ vm_compute; discriminate | ].
  vm_compute. repeat constructor.
Qed.

End HostRun.

(** *** The runs on the two sample environments *)

Lemma teardown_reverse_but_geometry_witness :
  Host.envOk Host.goodEnv = true
  /\ Host.destroyed (Host.trace (Host.main Host.goodEnv (Host.initialState tt)).1)
     = Host.swapGeometryBuffers
         <$> rev (Host.created (Host.trace (Host.main Host.goodEnv (Host.initialState tt)).1)).
Proof.
  split; [ reflexivity | ].
  destruct (teardown_reverse_but_geometry tt Host.goodEnv) as (_ & _ & H & _);
    [ reflexivity | exact H ].
Defined.

(** C6 as stated fails: the vertex buffer is created before the index
    buffer and also released before it. *)
Lemma teardown_not_reverse :
  (Host.main Host.goodEnv (Host.initialState tt)).2 = Done tt
  /\ rev (Host.created (Host.trace (Host.main Host.goodEnv (Host.initialState tt)).1)) !! 5%nat
     = Some Host.IndexBuffer
  /\ Host.destroyed (Host.trace (Host.main Host.goodEnv (Host.initialState tt)).1) !! 5%nat
     = Some Host.VertexBuffer
  /\ Host.destroyed (Host.trace (Host.main Host.goodEnv (Host.initialState tt)).1)
     <> rev (Host.created (Host.trace (Host.main Host.goodEnv (Host.initialState tt)).1)).
Proof.
  split; [ vm_compute; reflexivity | ].
  split; [ vm_compute; reflexivity | ].
  split; [ vm_compute; reflexivity | ].
  vm_compute. discriminate.
Qed.



Lemma dispatch_loop_batches_witness :
  Host.envOk Host.goodEnv = true
  /\ (λ d, Host.sample_batch <$> Host.d_pushConstants d)
       <$> Host.dispatches (Host.trace (Host.main Host.goodEnv (Host.initialState tt)).1)
     = Some <$> seqZ 0 32.
Proof.
  split; [ reflexivity | ].
  destruct (dispatch_loop_batches tt Host.goodEnv) as (_ & _ & _ & H);
    [ reflexivity | exact H ].
Defined.

Lemma push_constants_only_sample_batch_witness :
  Host.envOk Host.goodEnv = true
  /\ Host.pushes (Host.trace (Host.main Host.goodEnv (Host.initialState tt)).1)
     = (λ i, {| Host.sample_batch := i; Host.rest := tt |}) <$> seqZ 0 32.
Proof.
  split; [ reflexivity | ].
  destruct (push_constants_only_sample_batch tt Host.goodEnv) as (H & _);
    [ reflexivity | exact H ].
Defined.

Lemma tlas_grid_instances_witness :
  Host.envOk Host.goodEnv = true
  /\ exists instances,
       Host.tlasBuilds (Host.trace (Host.main Host.goodEnv (Host.initialState tt)).1)
       = [instances]
       /\ length instances = 441%nat
       /\ Forall (λ inst, Host.accelerationStructureReference inst = 4096) instances.
Proof.
  split; [ reflexivity | ].
  destruct (tlas_grid_instances tt Host.goodEnv)
    as (instances & _ & _ & Hbuilds & Hlen & Hrefs & _); [ reflexivity | ].
  exists instances. split; [ exact Hbuilds | ]. split; [ exact Hlen | exact Hrefs ].
Defined.

Lemma sbt_regions_layout_witness :
  Host.envOk Host.goodEnv = true
  /\ Forall (λ d, Host.d_regions d = Sbt.sbtRegions 65536 (Host.strideOf Host.goodEnv))
            (Host.dispatches (Host.trace (Host.main Host.goodEnv (Host.initialState tt)).1)).
Proof.
  split; [ reflexivity | ].
  destruct (sbt_regions_layout tt Host.goodEnv) as (_ & _ & H);
    [ reflexivity | exact H ].
Defined.

(** ** Further properties of the host program *)

(** Brings a run of [main] in an environment whose device properties and
    mesh are good into a form that evaluates; the arguments of
    [buildBlas] and the stride become variables. *)
Ltac eval_main_using Hp Hv Hs Hw :=
  unfold Host.strideOf, Host.main;
  rewrite (sbtSetup_ok _ Hp), Hv, Hs; cbv zeta;
  rewrite bind_Done, Hw;
  match goal with
  | |- context [ Host.BuildBlas ?a ?b ] =>
      let primitiveCount := fresh "primitiveCount" in
      let maxVertex := fresh "maxVertex" in
      generalize a; intros primitiveCount; generalize b; intros maxVertex
  end;
  match goal with
  | |- context [ Sbt.sbtStride ?a ?b ] =>
      let stride := fresh "stride" in
      generalize (Sbt.sbtStride a b); intros stride
  end.

Ltac eval_main env Hp Hv Hs :=
  let mapped' := fresh "mapped'" in
  let Hw := fresh "Hw" in
  destruct (writeSBT_main env Hp) as (mapped' & Hw);
  eval_main_using Hp Hv Hs Hw;
  clear Hw.

Section HostOutcome.
Import Sbt Host HostTrace.
Context {Rest : Type} (restZero : Rest).

(** X2.  When one of the two start-up assertions on the device properties
    fails (the base alignment is no multiple of the handle alignment, or
    the stride exceeds the largest stride the device allows), the run
    stops right after the context was created: no allocator, image or
    other object exists yet and the mesh file has not been opened. *)
Theorem alignment_failure_stops_after_context (env : Env) :
  propsInRange (rtPipelineProperties env) = true ->
  shaderGroupBaseAlignment (rtPipelineProperties env)
    mod shaderGroupHandleAlignment (rtPipelineProperties env) <> 0
  \/ maxShaderGroupStride (rtPipelineProperties env) < strideOf env ->
  main env (initialState restZero)
  = ({| trace := [Create Context];
        pushConstants := {| sample_batch := 0; rest := restZero |} |}, Abort).
Proof.
  intros Hr Hfail.
  assert (Hp : propsOk (rtPipelineProperties env) = false).
  { rewrite (propsOk_split _ Hr). apply andb_false_iff.
    destruct Hfail as [Hmod|Hmax]; [ left | right ].
    - by apply Z.eqb_neq.
    - apply Z.leb_gt. exact Hmax. }
  unfold main. rewrite (sbtSetup_in_range _ Hr), Hp. reflexivity.
Qed.

End HostOutcome.

Lemma alignment_failure_stops_after_context_witness :
  HostTrace.propsInRange (Host.rtPipelineProperties HostTrace.badAlignEnv) = true
  /\ Host.main HostTrace.badAlignEnv (Host.initialState tt)
     = ({| Host.trace := [Host.Create Host.Context];
           Host.pushConstants := {| Host.sample_batch := 0; Host.rest := tt |} |}, Abort).
Proof.
  split; [ reflexivity | ].
  apply (alignment_failure_stops_after_context tt HostTrace.badAlignEnv);
    [ reflexivity | left; vm_compute; discriminate ].
Defined.

Section HostBehaviour.
Import Sbt Host HostTrace.
Context {Rest : Type} (restZero : Rest).

(** X3.  In a completed run 33 command buffers are used (one upload, 32
    sample batches), and the calls that allocate, submit and free command
    buffers come in whole cycles: each buffer is allocated, submitted and
    waited for, and freed before the next one is allocated. *)
Theorem command_buffers_one_at_a_time (env : Env) :
  envOk env = true ->
  length (submits (trace (main env (initialState restZero)).1)) = 33%nat
  /\ filter isCmdBufferEvent (trace (main env (initialState restZero)).1)
     = concat (cmdBufferCycle <$> submits (trace (main env (initialState restZero)).1)).
Proof.
  intros Hok. destruct (envOk_parts env Hok) as (Hp & Hv & Hs).
  eval_main env Hp Hv Hs.
  split; vm_compute; reflexivity.
Qed.

(** X4.  In a completed run every command finds the two images in the
    layout it expects: each image barrier starts from the layout the image
    is in, all 32 dispatches run with [image] in GENERAL, and the copy
    runs with [image] in TRANSFER_SRC_OPTIMAL and [imageLinear] in
    TRANSFER_DST_OPTIMAL, the layouts the images end in. *)
Theorem image_layouts_consistent (env : Env) :
  envOk env = true ->
  trackLayouts initialLayouts
    (concat (submits (trace (main env (initialState restZero)).1)))
  = Some {| imageLayout := LayoutTransferSrc; imageLinearLayout := LayoutTransferDst |}.
Proof.
  intros Hok. destruct (envOk_parts env Hok) as (Hp & Hv & Hs).
  eval_main env Hp Hv Hs.
  vm_compute. reflexivity.
Qed.

(** X5.  In a completed run the image is copied to the host-readable
    image exactly once, after all 32 dispatches, and [out.hdr] is written
    once, after the last command buffer has been submitted and waited
    for. *)
Theorem copy_back_once_after_last_batch (env : Env) :
  envOk env = true ->
  filter isImageAccess (concat (submits (trace (main env (initialState restZero)).1)))
  = replicate 32
      (CmdTraceRays (sbtRegions (bufferDeviceAddress env RtSBTBuffer) (strideOf env))
                    render_width render_height 1)
    ++ [CmdCopyImage Image ImageLinear]
  /\ (exists before after,
        trace (main env (initialState restZero)).1 = before ++ WriteHdr :: after
        /\ filter isWriteHdr before = [] /\ filter isWriteHdr after = []
        /\ submits after = []).
Proof.
  intros Hok. destruct (envOk_parts env Hok) as (Hp & Hv & Hs).
  eval_main env Hp Hv Hs.
  split; [ vm_compute; reflexivity | ].
  match goal with
  | |- context [ trace ?st ] =>
      exists (take 593 (trace st)), (drop 594 (trace st))
  end.
  split; [ vm_compute; reflexivity | ].
  split; [ vm_compute; reflexivity | ].
  split; vm_compute; reflexivity.
Qed.

(** X6.  The 441 instances handed to [buildTlas] share custom index 0,
    mask 0xFF, SBT record offset 0 and the cull-disable flag.  The
    [k]-th of them, at grid position [(k / 21 - 10, k mod 21 - 10)], has
    the transform
    [translate(x, y, 0) * scale(1 / 2.7) * rotate(d', (0,1,0))
     * rotate(d, (1,0,0)) * translate(0, -1, 0)]
    where [d] is draw number [2k] and [d'] draw number [2k+1] of the
    random engine: the rotation about x takes the earlier draw, the one
    about y the later, and no draw is used twice. *)
Theorem instances_use_consecutive_draws (env : Env) :
  envOk env = true ->
  exists instances,
    tlasBuilds (trace (main env (initialState restZero)).1) = [instances]
    /\ transform <$> instances
       = (λ k : nat,
            MatMul (Translate (FOfInt (Z.of_nat k / 21 - 10))
                              (FOfInt (Z.of_nat k mod 21 - 10)) (FLit 0))
              (MatMul (Scale (FDiv (FLit 1) (FLit 2.7)) (FDiv (FLit 1) (FLit 2.7))
                             (FDiv (FLit 1) (FLit 2.7)))
                 (MatMul (Rotate (FDraw (2 * k + 1)) (FLit 0) (FLit 1) (FLit 0))
                    (MatMul (Rotate (FDraw (2 * k)) (FLit 1) (FLit 0) (FLit 0))
                       (Translate (FLit 0) (FLit (-1)) (FLit 0))))))
         <$> seq 0 441
    /\ (λ inst, (instanceCustomIndex inst, mask inst,
                 instanceShaderBindingTableRecordOffset inst, flags inst))
         <$> instances
       = replicate 441 (0, 255, 0, 1).
Proof.
  intros Hok. destruct (envOk_parts env Hok) as (Hp & Hv & Hs).
  exists (default [] (head (tlasBuilds (trace (main env (initialState restZero)).1)))).
  eval_main env Hp Hv Hs.
  split; [ vm_compute; reflexivity | ].
  split; vm_compute; reflexivity.
Qed.

End HostBehaviour.

Lemma command_buffers_one_at_a_time_witness :
  Host.envOk Host.goodEnv = true
  /\ length (Host.submits (Host.trace (Host.main Host.goodEnv (Host.initialState tt)).1))
     = 33%nat.
Proof.
  split; [ reflexivity | ].
  destruct (command_buffers_one_at_a_time tt Host.goodEnv) as (H & _);
    [ reflexivity | exact H ].
Defined.

Lemma image_layouts_consistent_witness :
  Host.envOk Host.goodEnv = true
  /\ HostTrace.trackLayouts HostTrace.initialLayouts
       (concat (Host.submits (Host.trace (Host.main Host.goodEnv (Host.initialState tt)).1)))
     = Some {| HostTrace.imageLayout := Host.LayoutTransferSrc;
               HostTrace.imageLinearLayout := Host.LayoutTransferDst |}.
Proof.
  split; [ reflexivity | ].
  apply (image_layouts_consistent tt Host.goodEnv). reflexivity.
Defined.

Lemma copy_back_once_after_last_batch_witness :
  Host.envOk Host.goodEnv = true
  /\ filter HostTrace.isImageAccess
       (concat (Host.submits (Host.trace (Host.main Host.goodEnv (Host.initialState tt)).1)))
     = replicate 32
         (Host.CmdTraceRays (Sbt.sbtRegions 65536 (Host.strideOf Host.goodEnv))
                            Host.render_width Host.render_height 1)
       ++ [Host.CmdCopyImage Host.Image Host.ImageLinear].
Proof.
  split; [ reflexivity | ].
  destruct (copy_back_once_after_last_batch tt Host.goodEnv) as (H & _);
    [ reflexivity | exact H ].
Defined.

Lemma instances_use_consecutive_draws_witness :
  Host.envOk Host.goodEnv = true
  /\ exists instances,
       Host.tlasBuilds (Host.trace (Host.main Host.goodEnv (Host.initialState tt)).1)
       = [instances]
       /\ Host.transform <$> instances !! 22%nat
          = Some (Host.MatMul
                    (Host.Translate (Host.FOfInt (-9)) (Host.FOfInt (-9)) (Host.FLit 0))
                    (Host.MatMul
                       (Host.Scale (Host.FDiv (Host.FLit 1) (Host.FLit 2.7))
                                   (Host.FDiv (Host.FLit 1) (Host.FLit 2.7))
                                   (Host.FDiv (Host.FLit 1) (Host.FLit 2.7)))
                       (Host.MatMul
                          (Host.Rotate (Host.FDraw 45) (Host.FLit 0) (Host.FLit 1)
                                       (Host.FLit 0))
                          (Host.MatMul
                             (Host.Rotate (Host.FDraw 44) (Host.FLit 1) (Host.FLit 0)
                                          (Host.FLit 0))
                             (Host.Translate (Host.FLit 0) (Host.FLit (-1))
                                             (Host.FLit 0)))))).
Proof.
  split; [ reflexivity | ].
  destruct (instances_use_consecutive_draws tt Host.goodEnv)
    as (instances & Hbuilds & Htransforms & _); [ reflexivity | ].
  exists instances. split; [ exact Hbuilds | ].
  apply (f_equal (λ l, l !! 22%nat)) in Htransforms.
  rewrite list_lookup_fmap in Htransforms. rewrite Htransforms.
  vm_compute. reflexivity.
Defined.

Section SbtStrideLeast.
Import Sbt.


End SbtStrideLeast.


Section HostTable.
Import Sbt Host HostTrace.
Context {Rest : Type} (restZero : Rest).

(** The table main.cpp writes, byte by byte. *)
Lemma writeSBT_main_contents env :
  propsOk (rtPipelineProperties env) = true ->
  exists mapped',
    writeSBT groups_size
      (sbtStride (shaderGroupHandleSize (rtPipelineProperties env))
                 (shaderGroupBaseAlignment (rtPipelineProperties env)))
      (shaderGroupHandleSize (rtPipelineProperties env))
      (shaderGroupHandles env
         <$> seq 0 (Z.to_nat (u64 (shaderGroupHandleSize (rtPipelineProperties env)
                                   * groups_size))))
      (mappedMemory env
         <$> seq 0 (Z.to_nat
                      (sbtSize groups_size
                         (sbtStride
                            (shaderGroupHandleSize (rtPipelineProperties env))
                            (shaderGroupBaseAlignment (rtPipelineProperties env))))))
    = Done mapped'
    /\ length mapped' = Z.to_nat (strideOf env)
    /\ take (Z.to_nat (shaderGroupHandleSize (rtPipelineProperties env))) mapped'
       = shaderGroupHandles env
           <$> seq 0 (Z.to_nat (shaderGroupHandleSize (rtPipelineProperties env)))
    /\ (forall p : nat,
          (Z.to_nat (shaderGroupHandleSize (rtPipelineProperties env)) <= p
           < Z.to_nat (strideOf env))%nat ->
          mapped' !! p = Some (mappedMemory env p)).
Proof.
  intros Hp. unfold strideOf.
  destruct (propsOk_facts _ Hp) as (Hh & Hb & Hm & Hhpos & Hbpos & _ & _ & Hmax).
  pose proof (sbtStride_ge _ _ Hh Hb Hbpos) as Hge.
  rewrite sbtSize_exact by (unfold is_u32, groups_size in *; lia).
  unfold is_u32 in *. unfold groups_size, u64.
  rewrite !Z.mul_1_r.
  rewrite (Z.mod_small (shaderGroupHandleSize _)) by lia.
  set (hs := shaderGroupHandleSize (rtPipelineProperties env)) in *.
  set (stride := sbtStride hs (shaderGroupBaseAlignment (rtPipelineProperties env))) in *.
  destruct (writeSBT_roundtrip 1 stride hs
              (shaderGroupHandles env <$> seq 0 (Z.to_nat hs))
              ltac:(lia) ltac:(lia) ltac:(lia)
              ltac:(rewrite length_fmap, length_seq; f_equal; lia)
              (mappedMemory env <$> seq 0 (Z.to_nat stride))
              ltac:(rewrite length_fmap, length_seq; f_equal; lia))
    as (mapped' & Hrun & Hlen & Hread & Hpad).
  exists mapped'. split; [ exact Hrun | ].
  rewrite length_fmap, length_seq in Hlen.
  split; [ exact Hlen | ].
  split.
  - specialize (Hread 0 ltac:(lia)). unfold readHandle, handleOf in Hread.
    rewrite !Z.mul_0_l in Hread.
    change (take (Z.to_nat hs) mapped'
            = take (Z.to_nat hs) (shaderGroupHandles env <$> seq 0 (Z.to_nat hs)))
      in Hread.
    rewrite Hread.
    apply take_ge. rewrite length_fmap, length_seq. lia.
  - intros p Hrange. rewrite Hpad.
    + rewrite list_lookup_fmap, lookup_seq_lt by lia. reflexivity.
    + intros j Hj. assert (j = 0) as -> by lia. lia.
Qed.

(** X8.  The table a completed run uploads is one stride long; its first
    [shaderGroupHandleSize] bytes are the handle the driver returned for
    group 0, and the bytes after them are the mapped memory as it was. *)
Theorem uploaded_table_contents (env : Env) :
  envOk env = true ->
  exists contents,
    unmapped (trace (main env (initialState restZero)).1) = [contents]
    /\ length contents = Z.to_nat (strideOf env)
    /\ take (Z.to_nat (shaderGroupHandleSize (rtPipelineProperties env))) contents
       = shaderGroupHandles env
           <$> seq 0 (Z.to_nat (shaderGroupHandleSize (rtPipelineProperties env)))
    /\ (forall p : nat,
          (Z.to_nat (shaderGroupHandleSize (rtPipelineProperties env)) <= p
           < Z.to_nat (strideOf env))%nat ->
          contents !! p = Some (mappedMemory env p)).
Proof.
  intros Hok. destruct (envOk_parts env Hok) as (Hp & Hv & Hs).
  destruct (writeSBT_main_contents env Hp) as (mapped' & Hw & Hlen & Htake & Hpad).
  exists mapped'. split; [ | auto ].
  eval_main_using Hp Hv Hs Hw. vm_compute. reflexivity.
Qed.

Lemma blas_counts (shape : list Z) (vertices : list spec_float) :
  Z.of_nat (length shape) < 3 * 2 ^ 32 ->
  Z.of_nat (length vertices) < 3 * 2 ^ 32 ->
  u32 (Z.of_nat (length (u32 <$> shape)) / 3) = Z.of_nat (length shape) / 3
  /\ u32 (u64 (Z.of_nat (length vertices) / 3 - 1))
     = if decide (length vertices < 3)%nat then 2 ^ 32 - 1
       else Z.of_nat (length vertices) / 3 - 1.
Proof.
  intros Hs Hv. rewrite length_fmap. unfold u32, u64. split.
  - apply Z.mod_small. split; [ apply Z.div_pos; lia | ].
    apply Z.div_lt_upper_bound; lia.
  - destruct (decide _) as [Hlt|Hge].
    + rewrite Z.div_small by lia. reflexivity.
    + assert (1 <= Z.of_nat (length vertices) / 3)
        by (apply Z.div_le_lower_bound; lia).
      assert (Z.of_nat (length vertices) / 3 < 2 ^ 32)
        by (apply Z.div_lt_upper_bound; lia).
      rewrite (Z.mod_small _ (2 ^ 64)) by lia. apply Z.mod_small. lia.
Qed.

(** X9.  The first call on the builder is [buildBlas], with a third of
    the shape's index count as the number of triangles and, as
    [maxVertex], a third of the number of vertex coordinates minus one.
    For a mesh with fewer than three coordinates that subtraction wraps:
    [maxVertex] is then [2^32 - 1]. *)
Theorem blas_triangle_and_vertex_counts (env : Env) (shape : list Z) :
  envOk env = true ->
  objShapes env = [shape] ->
  Z.of_nat (length shape) < 3 * 2 ^ 32 ->
  Z.of_nat (length (objVertices env)) < 3 * 2 ^ 32 ->
  exists later,
    builderCalls (trace (main env (initialState restZero)).1)
    = BuildBlas (Z.of_nat (length shape) / 3)
                (if decide (length (objVertices env) < 3)%nat then 2 ^ 32 - 1
                 else Z.of_nat (length (objVertices env)) / 3 - 1)
      :: later.
Proof.
  intros Hok Hshape Hs Hv. destruct (envOk_parts env Hok) as (Hp & Hvalid & Hone).
  destruct (writeSBT_main env Hp) as (mapped' & Hw).
  destruct (blas_counts shape (objVertices env) Hs Hv) as (Epc & Emv).
  exists (drop 1 (builderCalls (trace (main env (initialState restZero)).1))).
  unfold main. cbv zeta. rewrite (sbtSetup_ok _ Hp), Hvalid, Hshape.
  change (default [] ([shape] !! 0%nat)) with shape.
  rewrite bind_Done, Hw, Epc, Emv.
  generalize (Z.of_nat (length shape) / 3). intros primitiveCount.
  generalize (if decide (length (objVertices env) < 3)%nat then 2 ^ 32 - 1
              else Z.of_nat (length (objVertices env)) / 3 - 1).
  intros maxVertex.
  generalize (sbtStride (shaderGroupHandleSize (rtPipelineProperties env))
                        (shaderGroupBaseAlignment (rtPipelineProperties env))).
  intros stride.
  vm_compute. reflexivity.
Qed.

End HostTable.

Lemma uploaded_table_contents_witness :
  Host.envOk Host.goodEnv = true
  /\ exists contents,
       HostTrace.unmapped (Host.trace (Host.main Host.goodEnv (Host.initialState tt)).1)
       = [contents]
       /\ length contents = 64%nat
       /\ take 32 contents = replicate 32 Byte.x2a.
Proof.
  split; [ reflexivity | ].
  destruct (uploaded_table_contents tt Host.goodEnv)
    as (contents & Hunmapped & Hlen & Htake & _); [ reflexivity | ].
  exists contents. split; [ exact Hunmapped | ]. split; [ exact Hlen | exact Htake ].
Defined.

Lemma blas_triangle_and_vertex_counts_witness :
  Host.envOk HostTrace.noVertexEnv = true
  /\ exists later,
       Host.builderCalls
         (Host.trace (Host.main HostTrace.noVertexEnv (Host.initialState tt)).1)
       = Host.BuildBlas 0 4294967295 :: later.
Proof.
  split; [ reflexivity | ].
  destruct (blas_triangle_and_vertex_counts tt HostTrace.noVertexEnv [])
    as (later & Hcalls); [ reflexivity | reflexivity | reflexivity | reflexivity | ].
  exists later. exact Hcalls.
Defined.

(** ** Further properties of the ray-generation shaders *)

Section ShaderBatches.
Import RayGen Channels.

Lemma chan_mix3 {F} `{FloatOps F} c (u v : vec3 F) (a : F) :
  chan c (mix3 u v a) = mix (chan c u) (chan c v) a.
Proof. destruct c; reflexivity. Qed.

Lemma inject_Z_pos (k : Z) : 0 < k -> (0 < inject_Z k)%Q.
Proof. intros Hk. change 0%Q with (inject_Z 0). rewrite <- Zlt_Qlt. lia. Qed.

Lemma weight_bounds (k : Z) :
  0 < k -> (0 < 1 / inject_Z k /\ 1 / inject_Z k <= 1)%Q.
Proof.
  intros Hk. pose proof (inject_Z_pos k Hk) as Hpos.
  assert (Hge : (1 <= inject_Z k)%Q)
    by (change 1%Q with (inject_Z 1); rewrite <- Zle_Qle; lia).
  split.
  - apply Qlt_shift_div_l; [ exact Hpos | lra ].
  - apply Qle_shift_div_r; [ exact Hpos | lra ].
Qed.

(** One frame [k > 0] of the accumulating shader, on one channel, cleared
    of the division. *)
Lemma accumStore_step_Q c (k : Z) (raw : vec3 Q) (pixel : vec4 Q) :
  0 < k ->
  (chan c (rgb (accumStore k raw pixel)) * inject_Z k
   == chan c (rgb pixel) * inject_Z (k - 1) + chan c raw)%Q.
Proof.
  intros Hk. unfold accumStore. rewrite (proj2 (Z.eqb_neq k 0)) by lia.
  cbn [rgb]. rewrite chan_mix3. unfold mix. cbn [f_add f_mul f_sub f_div f_of_int Q_ops].
  unfold Z.sub. rewrite inject_Z_plus, inject_Z_opp.
  pose proof (inject_Z_pos k Hk). field. lra.
Qed.

Lemma accumBatches_from_Q c (raws : list (vec3 Q)) :
  forall (k : Z) (pixel : vec4 Q),
    0 < k ->
    (chan c (rgb (accumBatches k raws pixel))
       * inject_Z (k + Z.of_nat (length raws) - 1)
     == chan c (rgb pixel) * inject_Z (k - 1) + channelSum c raws)%Q.
Proof.
  induction raws as [|raw raws IH]; intros k pixel Hk.
  - cbn [accumBatches length channelSum foldr].
    replace (k + Z.of_nat 0 - 1) with (k - 1) by lia. ring.
  - cbn [accumBatches length channelSum foldr]. fold (channelSum c raws).
    replace (k + Z.of_nat (S (length raws)) - 1)
      with (k + 1 + Z.of_nat (length raws) - 1) by lia.
    rewrite (IH (k + 1) (accumStore k raw pixel)) by lia.
    replace (k + 1 - 1) with k by lia.
    rewrite (accumStore_step_Q c k raw pixel Hk). ring.
Qed.

(** X11.  Over exact arithmetic, after frames 0, 1, ..., n (n > 0) the
    accumulating shader holds, in every channel, the mean of the results
    of frames 1 to n: the result of frame 0 and the image before it
    contribute nothing. *)
Theorem accum_is_mean_without_first (c : Channel) (raw0 : vec3 Q)
    (raws : list (vec3 Q)) (pixel : vec4 Q) :
  raws <> [] ->
  (chan c (rgb (accumBatches 0 (raw0 :: raws) pixel))
   == channelSum c raws / inject_Z (Z.of_nat (length raws)))%Q.
Proof.
  intros Hne.
  assert (Hlen : 0 < Z.of_nat (length raws)) by (destruct raws; [ done | cbn; lia ]).
  pose proof (inject_Z_pos _ Hlen) as Hpos.
  pose proof (accumBatches_from_Q c raws 1 (accumStore 0 raw0 pixel) ltac:(lia))
    as Hmean.
  replace (1 + Z.of_nat (length raws) - 1) with (Z.of_nat (length raws)) in Hmean by lia.
  cbn [accumBatches]. change (0 + 1) with 1.
  apply (Qmult_inj_r _ _ (inject_Z (Z.of_nat (length raws)))); [ lra | ].
  rewrite Hmean. change (inject_Z (1 - 1)) with 0%Q. field. lra.
Qed.

(** X12.  Over exact arithmetic, at every frame [k > 0] the accumulating
    shader stores, in every channel, a value between the one the image
    held and the new result. *)
Theorem accum_store_between (c : Channel) (k : Z) (raw : vec3 Q) (pixel : vec4 Q) :
  0 < k ->
  (chan c (rgb pixel) <= chan c raw ->
   chan c (rgb pixel) <= chan c (rgb (accumStore k raw pixel)) <= chan c raw)%Q
  /\ (chan c raw <= chan c (rgb pixel) ->
      chan c raw <= chan c (rgb (accumStore k raw pixel)) <= chan c (rgb pixel))%Q.
Proof.
  intros Hk. unfold accumStore. rewrite (proj2 (Z.eqb_neq k 0)) by lia.
  cbn [rgb]. rewrite chan_mix3. unfold mix. cbn [f_add f_mul f_sub f_div f_of_int Q_ops].
  destruct (weight_bounds k Hk) as [Ha0 Ha1].
  change (inject_Z 1) with 1%Q.
  generalize dependent (1 / inject_Z k)%Q. intros a Ha0 Ha1.
  split; intros Hle; split; nra.
Qed.

End ShaderBatches.

Lemma accum_is_mean_without_first_witness :
  (Channels.chan Channels.Red
     (RayGen.rgb (RayGen.accumBatches 0
                    [RayGen.vec3_splat 7%Q; RayGen.vec3_splat 1%Q; RayGen.vec3_splat 3%Q]
                    (RayGen.Vec4 (RayGen.vec3_splat 9%Q) 1%Q)))
   == 2)%Q.
Proof.
  rewrite (accum_is_mean_without_first Channels.Red (RayGen.vec3_splat 7%Q)
             [RayGen.vec3_splat 1%Q; RayGen.vec3_splat 3%Q]) by discriminate.
  reflexivity.
Defined.

Lemma accum_store_between_witness :
  (1 <= Channels.chan Channels.Green
          (RayGen.rgb (RayGen.accumStore 2 (RayGen.vec3_splat 3%Q)
                         (RayGen.Vec4 (RayGen.vec3_splat 1%Q) 1%Q)))
   <= 3)%Q.
Proof.
  destruct (accum_store_between Channels.Green 2 (RayGen.vec3_splat 3%Q)
              (RayGen.Vec4 (RayGen.vec3_splat 1%Q) 1%Q)) as [Hup _]; [ lia | ].
  apply Hup. discriminate.
Defined.

(** ** Properties of the bounce loop *)

Section Paths.
Import RayGen PathTrace.
Context {F : Type} `{FloatOps F, CompareOps F}.
Implicit Types (scene : Scene F) (prd : hitPayload F) (clearColor : vec3 F).

(** One [traceRayEXT] of the loop on a live path either ends the path,
    leaves its depth alone and is the only call made, or keeps the path
    alive one level deeper and comes with one shadow ray. *)
Lemma traceRay_step scene clearColor prd :
  done prd = false ->
  (done (traceRay scene clearColor prd).1 = true
   /\ depth (traceRay scene clearColor prd).1 = depth prd
   /\ (traceRay scene clearColor prd).2 = 1%nat)
  \/ (done (traceRay scene clearColor prd).1 = false
      /\ depth (traceRay scene clearColor prd).1 = depth prd + 1
      /\ (traceRay scene clearColor prd).2 = 2%nat).
Proof.
  intros Hlive. unfold traceRay. destruct (scene prd) as [h|].
  - unfold closestHitMain. cbv zeta.
    destruct ((3 <? depth prd) && f_ltb _ (roulette h)); cbn [done depth fst snd]; auto.
  - left. repeat split; reflexivity.
Qed.

(** No hit ends a path of depth at most 3. *)
Lemma traceRay_hit_early scene clearColor prd :
  is_Some (scene prd) -> depth prd <= 3 ->
  done (traceRay scene clearColor prd).1 = done prd.
Proof.
  intros [h Hh] Hd. unfold traceRay. rewrite Hh. unfold closestHitMain. cbv zeta.
  rewrite (proj2 (Z.ltb_ge 3 (depth prd))) by lia. reflexivity.
Qed.

Lemma bounceLoop_spec scene clearColor (fuel : nat) :
  forall prd (traces : nat),
    done prd = false -> 0 <= depth prd <= 8 ->
    (Z.to_nat (8 - depth prd) < fuel)%nat ->
    exists prd' n,
      bounceLoop fuel scene clearColor prd traces = Done (prd', n)
      /\ depth prd <= depth prd' <= 8
      /\ (done prd' = true \/ depth prd' = 8)
      /\ (done prd' = true -> depth prd' < 8)
      /\ Z.of_nat n
         = Z.of_nat traces + 2 * (depth prd' - depth prd)
           + (if done prd' then 1 else 0)
      /\ ((forall q, is_Some (scene q)) -> 4 <= depth prd').
Proof.
  induction fuel as [|fuel IH]; intros prd traces Hlive Hdepth Hfuel; [ lia | ].
  cbn [bounceLoop]. rewrite Hlive. cbn [negb andb].
  destruct (Z.ltb_spec (depth prd) 8) as [Hlt|Hge].
  - pose proof (traceRay_hit_early scene clearColor prd) as Hearly.
    destruct (traceRay_step scene clearColor prd Hlive)
      as [(Hd & Hsame & Hn)|(Hd & Hnext & Hn)];
      destruct (traceRay scene clearColor prd) as [prd1 n1];
      cbn [fst snd] in *; subst n1; rewrite Hd.
    + exists prd1, (traces + 1)%nat.
      split; [ reflexivity | ]. rewrite Hd, Hsame.
      split; [ lia | ]. split; [ by left | ]. split; [ lia | ]. split; [ lia | ].
      intros Hall. destruct (Z.le_gt_cases (depth prd) 3) as [Hle|]; [ | lia ].
      rewrite (Hearly (Hall prd) Hle) in Hd. congruence.
    + destruct (IH prd1 (traces + 2)%nat Hd ltac:(lia) ltac:(lia))
        as (prd' & n & Hrun & Hrange & Hend & Hdone & Hcount & Hall).
      exists prd', n. split; [ exact Hrun | ].
      split; [ lia | ]. split; [ exact Hend | ]. split; [ exact Hdone | ].
      split; [ lia | exact Hall ].
  - exists prd, traces. split; [ reflexivity | ]. rewrite Hlive.
    split; [ lia | ]. split; [ right; lia | ]. split; [ congruence | ].
    split; [ lia | ]. intros _. lia.
Qed.

(** What [tracePath] returns, for any scene. *)
Lemma tracePath_spec scene (clearColor origin direction : vec3 F) :
  exists prd (n : nat),
    tracePath scene clearColor origin direction = Done (prd, n)
    /\ 0 <= depth prd <= 8
    /\ (done prd = true \/ depth prd = 8)
    /\ (done prd = true -> depth prd < 8)
    /\ Z.of_nat n = 2 * depth prd + (if done prd then 1 else 0)
    /\ ((forall q, is_Some (scene q)) -> 4 <= depth prd).
Proof.
  destruct (bounceLoop_spec scene clearColor 9 (initialPayload origin direction) O
              eq_refl ltac:(cbn; lia) ltac:(cbn; lia))
    as (prd & n & Hrun & Hrange & Hend & Hdone & Hn & Hdeep).
  cbn [initialPayload depth] in *.
  exists prd, n. split; [ exact Hrun | ].
  split; [ lia | ]. split; [ exact Hend | ]. split; [ exact Hdone | ].
  split; [ lia | exact Hdeep ].
Qed.

(** At most 16 [traceRayEXT] calls per path. *)
Lemma tracePath_budget scene (clearColor origin direction : vec3 F) :
  exists prd (n : nat),
    tracePath scene clearColor origin direction = Done (prd, n) /\ (n <= 16)%nat.
Proof.
  destruct (tracePath_spec scene clearColor origin direction)
    as (prd & n & Hrun & Hrange & Hend & Hdone & Hn & _).
  exists prd, n. split; [ exact Hrun | ].
  destruct (done prd); [ specialize (Hdone eq_refl) | ]; lia.
Qed.

(** X13.  Whatever the scene and the random numbers, a path ends: the
    bounce loop returns with the path marked done at a depth below 8, or
    with depth 8.  Every hit that goes on costs two [traceRayEXT] calls,
    the one of the loop and the shadow ray of the closest-hit shader, and
    the miss or the hit that ends the path costs one: the number of calls
    is twice the depth reached, plus one when a shader ended the path,
    and never more than 16. *)
Theorem path_ends_within_16_traces scene (clearColor origin direction : vec3 F) :
  exists prd (n : nat),
    tracePath scene clearColor origin direction = Done (prd, n)
    /\ (n <= 16)%nat
    /\ 0 <= depth prd <= 8
    /\ (done prd = true \/ depth prd = 8)
    /\ Z.of_nat n = 2 * depth prd + (if done prd then 1 else 0).
Proof.
  destruct (tracePath_spec scene clearColor origin direction)
    as (prd & n & Hrun & Hrange & Hend & Hdone & Hn & _).
  exists prd, n. split; [ exact Hrun | ].
  split; [ destruct (done prd); [ specialize (Hdone eq_refl) | ]; lia | ].
  split; [ exact Hrange | ]. split; [ exact Hend | exact Hn ].
Qed.

(** X14.  Russian roulette starts at the fifth hit: in a scene where
    every ray hits something, no path is ended before depth 4, so every
    path makes at least 4 [traceRayEXT] calls. *)
Theorem roulette_spares_first_four_hits scene (clearColor origin direction : vec3 F) :
  (forall q, is_Some (scene q)) ->
  exists prd (n : nat),
    tracePath scene clearColor origin direction = Done (prd, n)
    /\ 4 <= depth prd /\ (4 <= n)%nat.
Proof.
  intros Hall.
  destruct (tracePath_spec scene clearColor origin direction)
    as (prd & n & Hrun & Hrange & Hend & Hdone & Hn & Hdeep).
  specialize (Hdeep Hall).
  exists prd, n. split; [ exact Hrun | ]. split; [ exact Hdeep | ].
  destruct (done prd); lia.
Qed.

(** X15.  For one pixel, the four-sample shader returns after at most 64
    [traceRayEXT] calls (16 per path, shadow rays included) and stores a
    colour with alpha 1 that does not depend on what the image held; the
    accumulating shader returns after at most 16 calls. *)
Theorem pixel_trace_budget scene (clearColor : vec3 F)
    (camera : Z → vec3 F * vec3 F) (origin direction : vec3 F) (frame : Z)
    (currentColor currentColor' : vec4 F) :
  (exists color (n : nat),
      rgenPixel scene clearColor camera currentColor = Done (color, n)
      /\ rgenPixel scene clearColor camera currentColor' = Done (color, n)
      /\ (n <= 64)%nat /\ alpha_ color = f_of_int 1)
  /\ (exists color (n : nat),
        accumPixel scene clearColor origin direction frame currentColor
        = Done (color, n)
        /\ (n <= 16)%nat).
Proof.
  split.
  - destruct (tracePath_budget scene clearColor (camera 0).1 (camera 0).2)
      as (p0 & n0 & E0 & B0).
    destruct (tracePath_budget scene clearColor (camera 1).1 (camera 1).2)
      as (p1 & n1 & E1 & B1).
    destruct (tracePath_budget scene clearColor (camera 2).1 (camera 2).2)
      as (p2 & n2 & E2 & B2).
    destruct (tracePath_budget scene clearColor (camera 3).1 (camera 3).2)
      as (p3 & n3 & E3 & B3).
    exists (rgenStore [hitValue p0; hitValue p1; hitValue p2; hitValue p3] currentColor),
      (n0 + n1 + n2 + n3)%nat.
    unfold rgenPixel, NUM_SAMPLES.
    change (Z.to_nat 4) with 4%nat.
    rewrite forLoop_unfold. cbv beta. change (0 <? 4) with true. cbv iota.
    rewrite E0. cbn [mbind Outcome_bind mret Outcome_ret fst snd app Nat.add].
    rewrite forLoop_unfold. cbv beta. change (0 + 1 <? 4) with true. cbv iota.
    change (0 + 1) with 1.
    rewrite E1. cbn [mbind Outcome_bind mret Outcome_ret fst snd app].
    rewrite forLoop_unfold. cbv beta. change (1 + 1 <? 4) with true. cbv iota.
    change (1 + 1) with 2.
    rewrite E2. cbn [mbind Outcome_bind mret Outcome_ret fst snd app].
    rewrite forLoop_unfold. cbv beta. change (2 + 1 <? 4) with true. cbv iota.
    change (2 + 1) with 3.
    rewrite E3. cbn [mbind Outcome_bind mret Outcome_ret fst snd app].
    rewrite forLoop_unfold. cbv beta. change (3 + 1 <? 4) with false. cbv iota.
    cbn [mbind Outcome_bind mret Outcome_ret fst snd].
    split; [ reflexivity | ]. split; [ reflexivity | ].
    split; [ lia | reflexivity ].
  - destruct (tracePath_budget scene clearColor origin direction)
      as (prd & n & Hrun & Hn).
    exists (accumStore frame (hitValue prd) currentColor), n.
    unfold accumPixel. rewrite Hrun. split; [ reflexivity | exact Hn ].
Qed.

End Paths.

(** The bound of 16 calls is reached: in the white box a path goes on to
    depth 8 and traces a shadow ray at each of its 8 hits. *)
Lemma sixteen_traces_reached :
  exists path,
    PathTrace.tracePath PathTrace.whiteBox (RayGen.vec3_splat 1%Q)
      (RayGen.vec3_splat 0%Q) (RayGen.vec3_splat 1%Q)
    = Done (path, 16%nat)
    /\ PathTrace.depth path = 8 /\ PathTrace.done path = false.
Proof. eexists. split; [ vm_compute; reflexivity | split; reflexivity ]. Qed.

Lemma roulette_spares_first_four_hits_witness :
  (forall q, is_Some (PathTrace.greyBox q))
  /\ exists prd (n : nat),
       PathTrace.tracePath PathTrace.greyBox (RayGen.vec3_splat 1%Q)
         (RayGen.vec3_splat 0%Q) (RayGen.vec3_splat 1%Q) = Done (prd, n)
       /\ 4 <= PathTrace.depth prd /\ (4 <= n)%nat.
Proof.
  split; [ intros q; eexists; reflexivity | ].
  apply (roulette_spares_first_four_hits PathTrace.greyBox).
  intros q. eexists. reflexivity.
Defined.

(** ** Properties of the full-screen pass *)

Section FullscreenPass.
Import RayGen Fullscreen.
Local Open Scope Q_scope.


(** X17.  For texture coordinates in the unit square the gradient
    fragment shader writes a colour whose four components lie in
    [0, 1]. *)
Theorem gradient_colour_in_range (u v : Q) :
  0 <= u <= 1 -> 0 <= v <= 1 ->
  Forall (λ c, 0 <= c <= 1)
    [vx (rgb (gradientMain u v)); vy (rgb (gradientMain u v));
     vz (rgb (gradientMain u v)); alpha_ (gradientMain u v)].
Proof.
  intros Hu Hv. unfold gradientMain. cbn [rgb vx vy vz alpha_].
  unfold f_sub, f_mul, f_of_int, Q_ops. change (inject_Z 1) with 1.
  repeat constructor; try lra; nra.
Qed.

End FullscreenPass.


Lemma gradient_colour_in_range_witness :
  Forall (λ c, 0 <= c <= 1)%Q
    [RayGen.vx (RayGen.rgb (Fullscreen.gradientMain (1 # 2) (1 # 3))%Q);
     RayGen.vy (RayGen.rgb (Fullscreen.gradientMain (1 # 2) (1 # 3))%Q);
     RayGen.vz (RayGen.rgb (Fullscreen.gradientMain (1 # 2) (1 # 3))%Q);
     RayGen.alpha_ (Fullscreen.gradientMain (1 # 2) (1 # 3))%Q].
Proof.
  apply (gradient_colour_in_range (1 # 2) (1 # 3)); split; discriminate.
Defined.

(** ** Properties of the window application *)

Section WindowRun.
Import Window.
Context (device : Z → option Z).

Lemma bind_run {St A B} (m : M St A) (k : A → M St B) (st st' : St) (a : A) :
  m st = (st', Done a) -> (m ≫= k) st = k a st'.
Proof. unfold mbind, M_bind. by intros ->. Qed.

(** The handle call number [call] returns, null when the call fails. *)
Lemma reliable_handle (call : Z) :
  reliable device -> device call = Some (default VK_NULL_HANDLE (device call)).
Proof. intros Hrel. by destruct (Hrel call) as [h ->]. Qed.

(** *** What the member functions do to the state *)

Lemma create_spec (o : Object) st :
  create device o st
  = ({| m_framebuffers := m_framebuffers st; imageCount := imageCount st;
        calls := calls st + 1;
        log := log st ++ [outcomeEvent (λ _, o) (device (calls st))] |}, Done tt).
Proof. reflexivity. Qed.

Lemma createHandle_spec (kind : Z → Object) st :
  createHandle device kind st
  = ({| m_framebuffers := m_framebuffers st; imageCount := imageCount st;
        calls := calls st + 1;
        log := log st ++ [outcomeEvent kind (device (calls st))] |},
     Done (default VK_NULL_HANDLE (device (calls st)))).
Proof. reflexivity. Qed.

Lemma destroyEach_spec (fbs : list Z) :
  forall st,
    destroyEach fbs st
    = ({| m_framebuffers := m_framebuffers st; imageCount := imageCount st;
          calls := calls st;
          log := log st ++ ((λ h, Destroy (Framebuffer h)) <$> fbs) |}, Done tt).
Proof.
  induction fbs as [|h fbs IH]; intros [v n c l].
  - cbn. by rewrite app_nil_r.
  - cbn [destroyEach]. unfold mbind, M_bind, emit. cbn [m_framebuffers imageCount calls log].
    rewrite IH. cbn [m_framebuffers imageCount calls log fmap list_fmap].
    by rewrite <- app_assoc.
Qed.

Lemma destroyFramebuffers_spec st :
  destroyFramebuffers st
  = ({| m_framebuffers := []; imageCount := imageCount st; calls := calls st;
        log := log st ++ ((λ h, Destroy (Framebuffer h)) <$> m_framebuffers st) |}, Done tt).
Proof.
  unfold destroyFramebuffers, mbind, M_bind, get_framebuffers.
  rewrite destroyEach_spec. reflexivity.
Qed.

(** The loop body fills the element of image [length pre]: with the new
    handle, or not at all when the call fails. *)
Lemma createFramebuffer_spec (pre : list Z) (r : Z) (rest : list Z) (count c : Z)
    (l : list Event) :
  createFramebuffer device (Z.of_nat (length pre)) tt
    {| m_framebuffers := pre ++ r :: rest; imageCount := count; calls := c; log := l |}
  = ({| m_framebuffers := (pre ++ [default r (device c)]) ++ rest; imageCount := count;
        calls := c + 1; log := l ++ [outcomeEvent Framebuffer (device c)] |}, Done tt).
Proof.
  unfold createFramebuffer, mbind, M_bind, indexFramebuffers, vkCreate, emit,
    get_framebuffers, set_framebuffers.
  cbn [m_framebuffers imageCount calls log].
  rewrite bool_decide_eq_true_2 by (rewrite length_app; cbn [length]; lia).
  cbn [m_framebuffers imageCount calls log].
  rewrite Nat2Z.id. rewrite <- app_assoc. cbn [app].
  destruct (device c) as [h|]; cbn [default m_framebuffers imageCount calls log mret M_ret];
    [ | reflexivity ].
  replace (length pre) with (length pre + 0)%nat at 1 by lia.
  rewrite insert_app_r. reflexivity.
Qed.

Lemma createLoop_spec (m : nat) :
  forall (pre : list Z) (count c : Z) (l : list Event),
    forEach (createFramebuffer device) (seqZ (Z.of_nat (length pre)) (Z.of_nat m)) tt
      {| m_framebuffers := pre ++ replicate m VK_NULL_HANDLE; imageCount := count;
         calls := c; log := l |}
    = ({| m_framebuffers :=
            pre ++ ((λ call, default VK_NULL_HANDLE (device call)) <$> seqZ c (Z.of_nat m));
          imageCount := count;
          calls := c + Z.of_nat m;
          log := l ++ ((λ call, outcomeEvent Framebuffer (device call))
                         <$> seqZ c (Z.of_nat m)) |},
       Done tt).
Proof.
  induction m as [|m IH]; intros pre count c l.
  - cbn. rewrite !app_nil_r, Z.add_0_r. reflexivity.
  - rewrite !(seqZ_cons _ (Z.of_nat (S m))) by lia.
    replace (Z.pred (Z.of_nat (S m))) with (Z.of_nat m) by lia.
    cbn [forEach replicate]. rewrite (bind_run _ _ _ _ _ (createFramebuffer_spec _ _ _ _ _ _)).
    replace (Z.succ (Z.of_nat (length pre)))
      with (Z.of_nat (length (pre ++ [default VK_NULL_HANDLE (device c)])))
      by (rewrite length_app; cbn [length]; lia).
    rewrite (IH (pre ++ [default VK_NULL_HANDLE (device c)]) count (c + 1)).
    cbn [fmap list_fmap]. rewrite <- !app_assoc. cbn [app].
    replace (Z.succ c) with (c + 1) by lia.
    replace (c + Z.of_nat (S m)) with (c + 1 + Z.of_nat m) by lia.
    reflexivity.
Qed.

Lemma createFramebuffers_spec st :
  m_framebuffers st = [] ->
  is_u32 (imageCount st) ->
  createFramebuffers device st
  = ({| m_framebuffers :=
          (λ call, default VK_NULL_HANDLE (device call))
            <$> seqZ (calls st) (imageCount st);
        imageCount := imageCount st;
        calls := calls st + imageCount st;
        log := log st ++ ((λ call, outcomeEvent Framebuffer (device call))
                            <$> seqZ (calls st) (imageCount st)) |}, Done tt).
Proof.
  destruct st as [v count c l]. cbn [m_framebuffers imageCount calls log].
  intros -> Hcount. unfold is_u32 in Hcount.
  unfold createFramebuffers, mbind at 1 2 3, M_bind at 1 2 3,
    getImageCount, get_framebuffers, set_framebuffers.
  cbn [m_framebuffers imageCount calls log].
  rewrite (forLoop_counts _ _ _ (Z.to_nat count));
    [ | lia
      | intros j Hj; split; [ apply Z.ltb_lt; lia | unfold u32; apply Z.mod_small; lia ]
      | apply Z.ltb_ge; lia ].
  pose proof (createLoop_spec (Z.to_nat count) [] count c l) as Hloop.
  cbn [app length] in Hloop. change (Z.of_nat 0) with 0 in Hloop.
  unfold resizeVec. rewrite take_nil. cbn [app length]. rewrite Nat.sub_0_r.
  rewrite Z2Nat.id in * by lia. exact Hloop.
Qed.

Lemma createPipeline_spec st :
  createPipeline device st
  = ({| m_framebuffers := m_framebuffers st; imageCount := imageCount st;
        calls := calls st + 1 + 1 + 1 + 1;
        log := log st
               ++ [outcomeEvent ShaderModule (device (calls st));
                   outcomeEvent ShaderModule (device (calls st + 1));
                   outcomeEvent (λ _, PipelineLayout) (device (calls st + 1 + 1));
                   outcomeEvent (λ _, Pipeline) (device (calls st + 1 + 1 + 1));
                   Destroy (ShaderModule (default VK_NULL_HANDLE (device (calls st))));
                   Destroy (ShaderModule
                              (default VK_NULL_HANDLE (device (calls st + 1))))] |},
     Done tt).
Proof.
  unfold createPipeline, createHandle, create, mbind, M_bind, vkCreate, emit.
  cbn [m_framebuffers imageCount calls log mret M_ret].
  by rewrite <- !app_assoc.
Qed.


Ltac run H :=
  rewrite (bind_run _ _ _ _ _ H); cbv beta; cbn [m_framebuffers imageCount calls log].

(** [begin] returns [true] whatever the device answers; the vector holds
    the handle of each framebuffer that was created and the null handle
    for each that was not. *)
Lemma begin_run (width height count : Z) :
  is_u32 count ->
  begin device width height count initialState
  = ({| m_framebuffers :=
          (λ call, default VK_NULL_HANDLE (device call))
            <$> seqZ callsBeforeFramebuffers count;
        imageCount := count;
        calls := callsBeforeFramebuffers + count + 1 + 1 + 1 + 1;
        log := [outcomeEvent (λ _, Context) (device 0);
                outcomeEvent (λ _, Swapchain) (device 1);
                UpdateSwapchain width height;
                outcomeEvent (λ _, DescriptorPool) (device 2);
                outcomeEvent (λ _, CmdPool) (device 3);
                outcomeEvent (λ _, RenderPass) (device 4)]
               ++ ((λ call, outcomeEvent Framebuffer (device call))
                     <$> seqZ callsBeforeFramebuffers count)
               ++ [outcomeEvent ShaderModule (device (callsBeforeFramebuffers + count));
                   outcomeEvent ShaderModule
                     (device (callsBeforeFramebuffers + count + 1));
                   outcomeEvent (λ _, PipelineLayout)
                     (device (callsBeforeFramebuffers + count + 1 + 1));
                   outcomeEvent (λ _, Pipeline)
                     (device (callsBeforeFramebuffers + count + 1 + 1 + 1));
                   Destroy (ShaderModule
                              (default VK_NULL_HANDLE
                                 (device (callsBeforeFramebuffers + count))));
                   Destroy (ShaderModule
                              (default VK_NULL_HANDLE
                                 (device (callsBeforeFramebuffers + count + 1))))] |},
     Done true).
Proof.
  intros Hcount. unfold begin, initialState.
  run (create_spec Context {| m_framebuffers := []; imageCount := 0; calls := 0; log := [] |}).
  match goal with |- (_ ≫= _) ?st = _ => run (create_spec Swapchain st) end.
  match goal with |- (_ ≫= _) ?st = _ =>
    run (eq_refl : updateSwapchain width height count st = (_, Done tt)) end.
  match goal with |- (_ ≫= _) ?st = _ => run (create_spec DescriptorPool st) end.
  match goal with |- (_ ≫= _) ?st = _ => run (create_spec CmdPool st) end.
  match goal with |- (_ ≫= _) ?st = _ => run (create_spec RenderPass st) end.
  match goal with |- (_ ≫= _) ?st = _ =>
    run (createFramebuffers_spec st eq_refl Hcount) end.
  match goal with |- (_ ≫= _) ?st = _ => run (createPipeline_spec st) end.
  cbn [app]. reflexivity.
Qed.

Lemma think_run (activeImageIndex : Z) st :
  0 <= activeImageIndex < Z.of_nat (length (m_framebuffers st)) ->
  think device activeImageIndex st
  = ({| m_framebuffers := m_framebuffers st; imageCount := imageCount st;
        calls := calls st + 1;
        log := log st
               ++ [outcomeEvent CommandBuffer (device (calls st));
                   DrawFrame (default VK_NULL_HANDLE (device (calls st)))
                             (default VK_NULL_HANDLE
                                (m_framebuffers st !! Z.to_nat activeImageIndex)) 3;
                   Present (default VK_NULL_HANDLE (device (calls st)))] |}, Done tt).
Proof.
  intros Hindex. unfold think.
  run (createHandle_spec CommandBuffer st).
  unfold mbind, M_bind, indexFramebuffers, get_framebuffers, emit.
  cbn [m_framebuffers imageCount calls log].
  rewrite bool_decide_eq_true_2 by exact Hindex.
  cbn [m_framebuffers imageCount calls log]. by rewrite <- !app_assoc.
Qed.

Lemma resize_run (width height count : Z) st :
  is_u32 count ->
  resize device width height count st
  = ({| m_framebuffers :=
          (λ call, default VK_NULL_HANDLE (device call)) <$> seqZ (calls st) count;
        imageCount := count;
        calls := calls st + count;
        log := log st
               ++ [DeviceWaitIdle]
               ++ ((λ h, Destroy (Framebuffer h)) <$> m_framebuffers st)
               ++ [UpdateSwapchain width height]
               ++ ((λ call, outcomeEvent Framebuffer (device call))
                     <$> seqZ (calls st) count) |}, Done tt).
Proof.
  intros Hcount. unfold resize.
  run (eq_refl : emit DeviceWaitIdle st = (_, Done tt)).
  match goal with |- (_ ≫= _) ?st = _ => run (destroyFramebuffers_spec st) end.
  match goal with |- (_ ≫= _) ?st = _ =>
    run (eq_refl : updateSwapchain width height count st = (_, Done tt)) end.
  match goal with |- _ ?st = _ => rewrite (createFramebuffers_spec st eq_refl Hcount) end.
  cbn [m_framebuffers imageCount calls log]. by rewrite <- !app_assoc.
Qed.


(** *** Replaying the logs *)

Lemma replay_app (l1 l2 : list Event) :
  forall live, replay live (l1 ++ l2) = replay live l1 ≫= λ live', replay live' l2.
Proof.
  induction l1 as [|e l1 IH]; intros live; [ reflexivity | ].
  cbn [app replay]. destruct (replayEvent live e); [ apply IH | reflexivity ].
Qed.

Lemma removeFirst_here {A} `{EqDecision A} (x : A) (l : list A) :
  removeFirst x (x :: l) = l.
Proof. cbn [removeFirst]. by rewrite decide_True. Qed.

Lemma removeFirst_further {A} `{EqDecision A} (x y : A) (l : list A) :
  x ≠ y -> removeFirst x (y :: l) = y :: removeFirst x l.
Proof. intros Hne. cbn [removeFirst]. by rewrite decide_False. Qed.

(** Destroying the framebuffers of the vector one by one leaves none
    alive, also when a handle occurs twice. *)
Lemma replay_destroy_framebuffers (os : list Object) (cmds fbs : list Z) :
  replay {| liveObjects := os; liveFramebuffers := fbs; recording := cmds |}
         ((λ h, Destroy (Framebuffer h)) <$> fbs)
  = Some {| liveObjects := os; liveFramebuffers := []; recording := cmds |}.
Proof.
  induction fbs as [|h fbs IH]; [ reflexivity | ].
  cbn [fmap list_fmap replay replayEvent liveFramebuffers liveObjects recording].
  rewrite bool_decide_eq_true_2 by apply list_elem_of_here.
  rewrite removeFirst_here. exact IH.
Qed.

Lemma replay_create_framebuffers (os : list Object) (cmds : list Z) (m : nat) :
  reliable device ->
  RenderPass ∈ os ->
  forall (pre : list Z) (c : Z),
    replay {| liveObjects := os; liveFramebuffers := pre; recording := cmds |}
           ((λ call, outcomeEvent Framebuffer (device call)) <$> seqZ c (Z.of_nat m))
    = Some {| liveObjects := os;
              liveFramebuffers :=
                pre ++ ((λ call, default VK_NULL_HANDLE (device call))
                          <$> seqZ c (Z.of_nat m));
              recording := cmds |}.
Proof.
  intros Hrel Hpass. induction m as [|m IH]; intros pre c.
  - cbn. by rewrite app_nil_r.
  - rewrite seqZ_cons by lia.
    replace (Z.pred (Z.of_nat (S m))) with (Z.of_nat m) by lia.
    cbn [fmap list_fmap replay]. destruct (Hrel c) as [h ->].
    cbn [outcomeEvent default replayEvent liveFramebuffers liveObjects recording].
    rewrite bool_decide_eq_true_2 by exact Hpass.
    rewrite IH. by rewrite <- app_assoc.
Qed.

Ltac member :=
  rewrite bool_decide_eq_true_2
    by (repeat first [ apply list_elem_of_here | apply list_elem_of_further ]).

Ltac removeFirst_step :=
  first [ rewrite removeFirst_here
        | rewrite removeFirst_further by discriminate ].

Lemma replay_pipeline (fbs : list Z) (c : Z) :
  reliable device ->
  replay {| liveObjects := [Context; Swapchain; DescriptorPool; CmdPool; RenderPass];
            liveFramebuffers := fbs; recording := [] |}
         [outcomeEvent ShaderModule (device c);
          outcomeEvent ShaderModule (device (c + 1));
          outcomeEvent (λ _, PipelineLayout) (device (c + 1 + 1));
          outcomeEvent (λ _, Pipeline) (device (c + 1 + 1 + 1));
          Destroy (ShaderModule (default VK_NULL_HANDLE (device c)));
          Destroy (ShaderModule (default VK_NULL_HANDLE (device (c + 1))))]
  = Some {| liveObjects := longLived; liveFramebuffers := fbs; recording := [] |}.
Proof.
  intros Hrel.
  destruct (Hrel c) as [vertShader ->]. destruct (Hrel (c + 1)) as [fragShader ->].
  destruct (Hrel (c + 1 + 1)) as [? ->]. destruct (Hrel (c + 1 + 1 + 1)) as [? ->].
  cbn [outcomeEvent default replay replayEvent liveObjects liveFramebuffers recording app].
  member. repeat removeFirst_step.
  cbn [replay replayEvent liveObjects liveFramebuffers recording app].
  member. repeat removeFirst_step.
  reflexivity.
Qed.

Lemma replay_begin (width height count : Z) :
  reliable device ->
  is_u32 count ->
  replay nothingLive
    ([outcomeEvent (λ _, Context) (device 0);
      outcomeEvent (λ _, Swapchain) (device 1);
      UpdateSwapchain width height;
      outcomeEvent (λ _, DescriptorPool) (device 2);
      outcomeEvent (λ _, CmdPool) (device 3);
      outcomeEvent (λ _, RenderPass) (device 4)]
     ++ ((λ call, outcomeEvent Framebuffer (device call))
           <$> seqZ callsBeforeFramebuffers count)
     ++ [outcomeEvent ShaderModule (device (callsBeforeFramebuffers + count));
         outcomeEvent ShaderModule (device (callsBeforeFramebuffers + count + 1));
         outcomeEvent (λ _, PipelineLayout)
           (device (callsBeforeFramebuffers + count + 1 + 1));
         outcomeEvent (λ _, Pipeline)
           (device (callsBeforeFramebuffers + count + 1 + 1 + 1));
         Destroy (ShaderModule
                    (default VK_NULL_HANDLE (device (callsBeforeFramebuffers + count))));
         Destroy (ShaderModule
                    (default VK_NULL_HANDLE
                       (device (callsBeforeFramebuffers + count + 1))))])
  = Some {| liveObjects := longLived;
            liveFramebuffers :=
              (λ call, default VK_NULL_HANDLE (device call))
                <$> seqZ callsBeforeFramebuffers count;
            recording := [] |}.
Proof.
  intros Hrel Hcount.
  rewrite replay_app.
  destruct (Hrel 0) as [? ->]. destruct (Hrel 1) as [? ->].
  destruct (Hrel 2) as [? ->]. destruct (Hrel 3) as [? ->].
  destruct (Hrel 4) as [? ->].
  cbn [outcomeEvent].
  change (replay nothingLive
            [Create Context; Create Swapchain; UpdateSwapchain width height;
             Create DescriptorPool; Create CmdPool; Create RenderPass])
    with (Some {| liveObjects := [Context; Swapchain; DescriptorPool; CmdPool; RenderPass];
                  liveFramebuffers := []; recording := [] |}).
  cbn [mbind option_bind]. rewrite replay_app.
  assert (Hnat : count = Z.of_nat (Z.to_nat count)) by (unfold is_u32 in Hcount; lia).
  rewrite Hnat at 1.
  rewrite (replay_create_framebuffers _ _ _ Hrel)
    by (repeat first [ apply list_elem_of_here | apply list_elem_of_further ]).
  cbn [app mbind option_bind].
  rewrite (replay_pipeline _ _ Hrel), <- Hnat. reflexivity.
Qed.


Lemma replay_resize (fbs : list Z) (width height c : Z) (m : nat) :
  reliable device ->
  replay {| liveObjects := longLived; liveFramebuffers := fbs; recording := [] |}
         ([DeviceWaitIdle] ++ ((λ h, Destroy (Framebuffer h)) <$> fbs)
          ++ [UpdateSwapchain width height]
          ++ ((λ call, outcomeEvent Framebuffer (device call)) <$> seqZ c (Z.of_nat m)))
  = Some {| liveObjects := longLived;
            liveFramebuffers :=
              (λ call, default VK_NULL_HANDLE (device call)) <$> seqZ c (Z.of_nat m);
            recording := [] |}.
Proof.
  intros Hrel. cbn [app replay].
  change (replayEvent {| liveObjects := longLived; liveFramebuffers := fbs;
                         recording := [] |} DeviceWaitIdle)
    with (Some {| liveObjects := longLived; liveFramebuffers := fbs; recording := [] |}).
  cbv iota.
  rewrite replay_app, replay_destroy_framebuffers. cbn [mbind option_bind].
  cbn [replay].
  change (replayEvent {| liveObjects := longLived; liveFramebuffers := [];
                         recording := [] |} (UpdateSwapchain width height))
    with (Some {| liveObjects := longLived; liveFramebuffers := []; recording := [] |}).
  cbv iota.
  rewrite (replay_create_framebuffers _ _ _ Hrel); [ reflexivity | ].
  unfold longLived. repeat first [ apply list_elem_of_here | apply list_elem_of_further ].
Qed.

Lemma replay_think (fbs : list Z) (cmd framebuffer : Z) :
  framebuffer ∈ fbs ->
  replay {| liveObjects := longLived; liveFramebuffers := fbs; recording := [] |}
         [Create (CommandBuffer cmd); DrawFrame cmd framebuffer 3; Present cmd]
  = Some {| liveObjects := longLived; liveFramebuffers := fbs; recording := [] |}.
Proof.
  intros Hin. cbn [replay replayEvent liveObjects liveFramebuffers recording app].
  rewrite bool_decide_eq_true_2
    by (unfold longLived; repeat first [ apply list_elem_of_here | apply list_elem_of_further ]).
  cbn [replay replayEvent liveObjects liveFramebuffers recording app].
  rewrite bool_decide_eq_true_2.
  2:{ split; [ apply list_elem_of_here | ]. split; [ exact Hin | ].
      split; unfold longLived;
        repeat first [ apply list_elem_of_here | apply list_elem_of_further ]. }
  cbn [replay replayEvent liveObjects liveFramebuffers recording app].
  rewrite bool_decide_eq_true_2.
  2:{ split; [ apply list_elem_of_here | ]. unfold longLived.
      repeat first [ apply list_elem_of_here | apply list_elem_of_further ]. }
  rewrite removeFirst_here. reflexivity.
Qed.


(** *** The invariant *)

Lemma begin_spec (width height count : Z) :
  reliable device ->
  is_u32 count ->
  exists st,
    begin device width height count initialState = (st, Done true)
    /\ consistent st /\ imageCount st = count.
Proof.
  intros Hrel Hcount. eexists. split; [ apply (begin_run _ _ _ Hcount) | ].
  split; [ | reflexivity ].
  unfold consistent. cbn [m_framebuffers imageCount calls log].
  split; [ apply (replay_begin _ _ _ Hrel Hcount) | ].
  split; [ by rewrite length_fmap, length_seqZ | exact Hcount ].
Qed.

Lemma think_spec (activeImageIndex : Z) st :
  reliable device ->
  consistent st ->
  0 <= activeImageIndex < imageCount st ->
  exists st',
    think device activeImageIndex st = (st', Done tt)
    /\ consistent st' /\ imageCount st' = imageCount st.
Proof.
  intros Hrel (Hlog & Hlen & Hcount) Hindex.
  destruct (lookup_lt_is_Some_2 (m_framebuffers st) (Z.to_nat activeImageIndex))
    as [framebuffer Hfb]; [ lia | ].
  eexists. split; [ apply think_run; lia | ]. split; [ | reflexivity ].
  unfold consistent. cbn [m_framebuffers imageCount calls log].
  split; [ | split; [ exact Hlen | exact Hcount ] ].
  rewrite replay_app, Hlog, Hfb. cbn [mbind option_bind default].
  destruct (Hrel (calls st)) as [cmd ->]. cbn [outcomeEvent default].
  apply replay_think. by eapply list_elem_of_lookup_2.
Qed.

Lemma resize_spec (width height count : Z) st :
  reliable device ->
  consistent st ->
  is_u32 count ->
  exists st',
    resize device width height count st = (st', Done tt)
    /\ consistent st' /\ imageCount st' = count.
Proof.
  intros Hrel (Hlog & Hlen & _) Hcount.
  eexists. split; [ apply (resize_run _ _ _ _ Hcount) | ]. split; [ | reflexivity ].
  unfold consistent. cbn [m_framebuffers imageCount calls log].
  split; [ | split; [ by rewrite length_fmap, length_seqZ | exact Hcount ] ].
  rewrite replay_app, Hlog. cbn [mbind option_bind].
  assert (Hnat : count = Z.of_nat (Z.to_nat count)) by (unfold is_u32 in Hcount; lia).
  rewrite Hnat. apply (replay_resize _ _ _ _ _ Hrel).
Qed.

Lemma handleAll_spec (inputs : list Input) :
  reliable device ->
  forall st,
    consistent st ->
    inputsOk (imageCount st) inputs = true ->
    exists st', handleAll device inputs st = (st', Done tt) /\ consistent st'.
Proof.
  intros Hrel. induction inputs as [|input inputs IH]; intros st Hst Hok.
  - exists st. by split.
  - cbn [handleAll].
    destruct input as [activeImageIndex|width height count]; cbn [inputsOk handle] in *;
      apply andb_true_iff in Hok as [Hhere Hrest].
    + apply bool_decide_eq_true_1 in Hhere.
      destruct (think_spec activeImageIndex st Hrel Hst Hhere) as (st' & Hrun & Hst' & Hsame).
      rewrite (bind_run _ _ _ _ _ Hrun).
      apply IH; [ exact Hst' | by rewrite Hsame ].
    + assert (Hcount : is_u32 count) by (unfold is_u32b, is_u32 in *; lia).
      destruct (resize_spec width height count st Hrel Hst Hcount)
        as (st' & Hrun & Hst' & Hsame).
      rewrite (bind_run _ _ _ _ _ Hrun).
      apply IH; [ exact Hst' | by rewrite Hsame ].
Qed.


Lemma run_to_end (width height count : Z) (inputs : list Input) :
  reliable device ->
  is_u32b count = true ->
  inputsOk count inputs = true ->
  exists st,
    (begin device width height count;; handleAll device inputs) initialState
    = (st, Done tt)
    /\ consistent st.
Proof.
  intros Hrel Hcount Hok.
  assert (Hcount' : is_u32 count) by (unfold is_u32b, is_u32 in *; lia).
  destruct (begin_spec width height count Hrel Hcount') as (st0 & Hbegin & Hst0 & Hsame).
  destruct (handleAll_spec inputs Hrel st0 Hst0) as (st & Hrun & Hst);
    [ by rewrite Hsame | ].
  exists st. split; [ | exact Hst ].
  by rewrite (bind_run _ _ _ _ _ Hbegin).
Qed.


(** X19 (part_002, [createFramebuffers], [destroyFramebuffers],
    [resize]).  On a device where every creating call succeeds, between
    [begin] and [end], after any inputs, the vector holds one
    framebuffer per swap chain image, the framebuffers alive on the
    device are exactly those of the vector, in its order, and no command
    buffer is held back: a resize leaks no framebuffer and leaves no
    stale handle in the vector. *)
Theorem framebuffers_follow_swapchain (width height count : Z) (inputs : list Input) :
  reliable device ->
  is_u32b count = true ->
  inputsOk count inputs = true ->
  exists st,
    (begin device width height count;; handleAll device inputs) initialState
    = (st, Done tt)
    /\ length (m_framebuffers st) = Z.to_nat (imageCount st)
    /\ replay nothingLive (log st)
       = Some {| liveObjects := longLived; liveFramebuffers := m_framebuffers st;
                 recording := [] |}.
Proof.
  intros Hrel Hcount Hok.
  destruct (run_to_end width height count inputs Hrel Hcount Hok)
    as (st & Hrun & Hlog & Hlen & _).
  exists st. split; [ exact Hrun | ]. split; [ exact Hlen | exact Hlog ].
Qed.


End WindowRun.


Lemma framebuffers_follow_swapchain_witness :
  Window.reliable Window.goodDevice
  /\ exists st,
       (Window.begin Window.goodDevice 800 600 3;;
        Window.handleAll Window.goodDevice
          [Window.Think 2; Window.Resize 1024 768 4; Window.Think 3]) Window.initialState
       = (st, Done tt)
       /\ length (Window.m_framebuffers st) = Z.to_nat (Window.imageCount st)
       /\ Window.replay Window.nothingLive (Window.log st)
          = Some {| Window.liveObjects := Window.longLived;
                    Window.liveFramebuffers := Window.m_framebuffers st;
                    Window.recording := [] |}.
Proof.
  assert (Hrel : Window.reliable Window.goodDevice) by (intros call; by eexists).
  split; [ exact Hrel | ].
  apply (framebuffers_follow_swapchain Window.goodDevice 800 600 3
           [Window.Think 2; Window.Resize 1024 768 4; Window.Think 3] Hrel); reflexivity.
Defined.

